(** * Chunked CSV analysis and transformation engine of data-cleanser

    Shallow embedding of [server/controllers/csv_controller.py]:
    [analyze_csv_quality_chunked], [preprocess_csv_task_chunked] and
    [apply_preprocessing_options], together with the parts of pandas'
    [read_csv] behaviour the code relies on (header, NA markers, padding of
    short records, strict and lenient parsing, [nrows], [chunksize]).

    Python floats are represented by exact rationals [Q]; the places where
    this matters are documented at the definitions. *)

From Stdlib Require Import List String Ascii Arith Lia ZArith QArith Qround Sorted
  DecimalString DecimalNat Permutation FinFun.
Import ListNotations.
Open Scope string_scope.
Open Scope nat_scope.
Open Scope list_scope.

(* ------------------------------------------------------------------ *)
(** ** Small Python helpers *)

(** Python [x in xs] on strings. *)
Fixpoint str_mem (x : string) (xs : list string) : bool :=
  match xs with
  | [] => false
  | y :: ys => String.eqb x y || str_mem x ys
  end.

(** A plain association list used as a Python [dict] keyed by strings:
    [d[k] = v] replaces the value of an existing key in place and appends a
    new key at the end (insertion order, as Python dicts keep it). *)
Fixpoint dict_set {A} (k : string) (v : A) (d : list (string * A))
  : list (string * A) :=
  match d with
  | [] => [(k, v)]
  | (k', v') :: d' =>
      if String.eqb k k' then (k, v) :: d' else (k', v') :: dict_set k v d'
  end.

Fixpoint dict_get {A} (k : string) (d : list (string * A)) : option A :=
  match d with
  | [] => None
  | (k', v') :: d' => if String.eqb k k' then Some v' else dict_get k d'
  end.

Definition sum_nat (l : list nat) : nat := fold_right Nat.add 0 l.

(** Python's [round(x, 2)] on the exact value (half away from zero for the
    nonnegative arguments used here). *)
Definition round2 (q : Q) : Q :=
  (inject_Z (Qfloor (q * 100 + (1 # 2))%Q) / 100)%Q.

(** An exception carries the message [str(e)]. *)
Definition exn := string.
Definition exc (A : Type) := (exn + A)%type.
Definition raise {A} (e : exn) : exc A := inl e.
Definition ret {A} (a : A) : exc A := inr a.
Definition bind {A B} (m : exc A) (k : A -> exc B) : exc B :=
  match m with inl e => inl e | inr a => k a end.
Notation "x <- m ;; k" := (bind m (fun x => k))
  (at level 61, m at next level, right associativity).

(* ------------------------------------------------------------------ *)
(** ** Files and pandas' reader *)

(** A text cell as read with [dtype=str]: [None] is NaN, [Some s] the text. *)
Definition cell := option string.

(** pandas' default NA markers ([keep_default_na=True]); a field equal to
    one of them is read as NaN, also under [dtype=str]. *)
Definition na_markers : list string :=
  [""; "#N/A"; "#N/A N/A"; "#NA"; "-1.#IND"; "-1.#QNAN"; "-NaN"; "-nan";
   "1.#IND"; "1.#QNAN"; "<NA>"; "N/A"; "NA"; "NULL"; "NaN"; "None";
   "n/a"; "nan"; "null"].

Definition to_cell (s : string) : cell :=
  if str_mem s na_markers then None else Some s.

(** A delimiter-structured file after splitting into lines and fields: the
    header line and the data records (blank lines are already skipped, as
    [read_csv] does). *)
Record csv_file := {
  header : list string;
  records : list (list string)
}.

(** One record under a header of [n] columns: a short record is padded with
    NaN, a record with more fields than the header is a parse error. *)
Definition parse_record (n : nat) (r : list string) : option (list cell) :=
  if Nat.leb (List.length r) n
  then Some (map to_cell r ++ repeat None (n - List.length r))
  else None.

Definition expected_fields_msg : exn := "Error tokenizing data".

(** Strict parsing (the default [on_bad_lines='error']). *)
Fixpoint parse_strict (n : nat) (rs : list (list string))
  : exc (list (list cell)) :=
  match rs with
  | [] => ret []
  | r :: rs' =>
      match parse_record n r with
      | None => raise expected_fields_msg
      | Some c => cs <- parse_strict n rs' ;; ret (c :: cs)
      end
  end.

(** Lenient parsing ([on_bad_lines='skip']): bad records are dropped. *)
Fixpoint parse_lenient (n : nat) (rs : list (list string)) : list (list cell) :=
  match rs with
  | [] => []
  | r :: rs' =>
      match parse_record n r with
      | None => parse_lenient n rs'
      | Some c => c :: parse_lenient n rs'
      end
  end.

Definition no_columns_msg : exn := "No columns to parse from file".

(** [str(n)] for a natural number. *)
Definition py_str (n : nat) : string := NilEmpty.string_of_uint (Nat.to_uint n).

(** [this_header[i] = col]. *)
Fixpoint list_set {A} (i : nat) (x : A) (l : list A) : list A :=
  match i, l with
  | _, [] => []
  | 0, _ :: l' => x :: l'
  | S i', y :: l' => y :: list_set i' x l'
  end.

(** [counts.get(col, 0)]. *)
Definition count_of (k : string) (counts : list (string * nat)) : nat :=
  match dict_get k counts with Some n => n | None => 0 end.

(** The [while cur_count > 0] loop of the header parsing of pandas (the
    [_get_header] method of the C parser; the python parser runs the same
    loop): it looks for a free name ["old_col.k"].  The fuel
    [len(this_header) + 1] is never used up (see [ColumnFacts]). *)
Fixpoint dedup_while (fuel : nat) (this_header : list string) (old_col col : string)
  (cur_count : nat) (counts : list (string * nat)) : string * nat * list (string * nat) :=
  match fuel with
  | 0 => (col, cur_count, counts)
  | S fuel' =>
      if Nat.eqb cur_count 0 then (col, cur_count, counts)
      else
        let counts := dict_set old_col (S cur_count) counts in
        let col := (old_col ++ "." ++ py_str cur_count)%string in
        let cur_count :=
          if str_mem col this_header then S cur_count else count_of col counts in
        dedup_while fuel' this_header old_col col cur_count counts
  end.

(** One pass of [for i in col_loop_order]:
    [col = this_header[i]; old_col = col; cur_count = counts.get(col, 0)],
    the loop, then [this_header[i] = col; counts[col] = cur_count + 1]. *)
Definition dedup_index (st : list string * list (string * nat)) (i : nat)
  : list string * list (string * nat) :=
  let '(this_header, counts) := st in
  let col := nth i this_header "" in
  let '(col', cur_count, counts') :=
    dedup_while (S (List.length this_header)) this_header col col
                (count_of col counts) counts in
  (list_set i col' this_header, dict_set col' (S cur_count) counts').

(** An empty header field [i] is named [f"Unnamed: {i}"]. *)
Definition unnamed_label (i : nat) (name : string) : string :=
  if String.eqb name "" then ("Unnamed: " ++ py_str i)%string else name.

(** The column labels pandas gives a header line: empty fields are named
    ["Unnamed: i"], then the named columns and after them the unnamed ones
    are visited in order, and a repeated label gets the first free suffix
    [".1"], [".2"], ... (a header [a,a] gives the columns [a] and [a.1]). *)
Definition py_columns (names : list string) : list string :=
  let idx := seq 0 (List.length names) in
  let this_header := map (fun i => unnamed_label i (nth i names "")) idx in
  let unnamed := filter (fun i => String.eqb (nth i names "") "") idx in
  let col_loop_order :=
    filter (fun i => negb (String.eqb (nth i names "") "")) idx ++ unnamed in
  fst (fold_left dedup_index col_loop_order (this_header, [])).

(** The columns as [read_csv] reads them; an empty file has no columns. *)
Definition read_header (f : csv_file) : exc (list string) :=
  match header f with
  | [] => raise no_columns_msg
  | h => ret (py_columns h)
  end.

(** [pd.read_csv(f, nrows=k, dtype=str)] (strict). *)
Definition read_csv_nrows (f : csv_file) (k : nat)
  : exc (list string * list (list cell)) :=
  cols <- read_header f ;;
  rows <- parse_strict (List.length cols) (firstn k (records f)) ;;
  ret (cols, rows).

Definition nrows_msg : exn := "'nrows' must be an integer >=0".

(** [pd.read_csv(f, nrows=k, dtype=str, engine="python",
    on_bad_lines="skip")]: a negative [nrows] is refused. *)
Definition read_csv_sample (f : csv_file) (k : Z)
  : exc (list string * list (list cell)) :=
  cols <- read_header f ;;
  if (k <? 0)%Z then raise nrows_msg
  else ret (cols, firstn (Z.to_nat k) (parse_lenient (List.length cols) (records f))).

(** Splitting into batches of [n] records, in file order ([chunksize=n]). *)
Fixpoint chunks_fuel {A} (fuel n : nat) (l : list A) : list (list A) :=
  match fuel with
  | 0 => []
  | S fuel' =>
      match l with
      | [] => []
      | _ => firstn n l :: chunks_fuel fuel' n (skipn n l)
      end
  end.

Definition chunks_of {A} (n : nat) (l : list A) : list (list A) :=
  chunks_fuel (List.length l) n l.

Definition chunksize_msg : exn := "'chunksize' must be an integer >=1".

(** The batches the iterator of [read_csv(..., chunksize=n)] yields: a file
    without records still yields one empty batch (the first read of the
    parser returns an empty frame instead of stopping). *)
Definition reader_batches {A} (n : nat) (l : list A) : list (list A) :=
  match l with
  | [] => [[]]
  | _ => chunks_of n l
  end.

(** The raw batches of the chunked reader; each is parsed when it is read. *)
Definition read_csv_chunks (f : csv_file) (n : nat)
  : exc (list string * list (list (list string))) :=
  cols <- read_header f ;;
  if Nat.eqb n 0 then raise chunksize_msg else ret (cols, reader_batches n (records f)).

(** [CHUNK_SIZE = 10000]. *)
Definition CHUNK_SIZE : nat := 10000.

(* ------------------------------------------------------------------ *)
(** ** Column helpers of pandas used by the analyzer *)

(** [chunk[col]] for the column at position [j]. *)
Definition col_values (j : nat) (chunk : list (list cell)) : list cell :=
  map (fun r => nth j r None) chunk.

(** [Series.dropna()]. *)
Fixpoint dropna (l : list cell) : list string :=
  match l with
  | [] => []
  | None :: l' => dropna l'
  | Some s :: l' => s :: dropna l'
  end.

(** [int(Series.isnull().sum())]. *)
Definition isnull_sum (l : list cell) : nat :=
  List.length (filter (fun c => match c with None => true | Some _ => false end) l).

(** [Series.unique()]: the distinct values in order of first appearance. *)
Fixpoint unique_aux (seen : list string) (l : list string) : list string :=
  match l with
  | [] => []
  | x :: l' =>
      if str_mem x seen then unique_aux seen l' else x :: unique_aux (x :: seen) l'
  end.

Definition unique (l : list string) : list string := unique_aux [] l.

(** [safe_convert_value] on a cell read with [dtype=str] that is not NaN:
    it is not a numpy scalar, array or bool, so the result is [str(value)],
    the text itself. *)
Definition safe_convert_value (s : string) : string := s.

(** The repository does not pin pandas; the model follows pandas 3. *)
Definition pandas_major : nat := 3.

(** The dtypes of pandas the analyzer can meet. *)
Inductive pd_dtype :=
| DObject
| DStr
| DInt64
| DFloat64.

(** [str(dtype)]. *)
Definition dtype_name (d : pd_dtype) : string :=
  match d with
  | DObject => "object"
  | DStr => "str"
  | DInt64 => "int64"
  | DFloat64 => "float64"
  end.

(** The dtype of a column read with [dtype=str], whatever its cells: the
    default string dtype [str] from pandas 3 on ([object] before). *)
Definition text_column_dtype (vals : list cell) : pd_dtype :=
  if Nat.leb 3 pandas_major then DStr else DObject.

(** [str(first_chunk[col].dtype)]. *)
Definition text_series_dtype (vals : list cell) : string :=
  dtype_name (text_column_dtype vals).

(* ------------------------------------------------------------------ *)
(** ** The full scan of [analyze_csv_quality_chunked] *)

(** [missing_counts[col]], [unique_trackers[col]], [sample_values[col]]. *)
Record col_acc := {
  acc_missing : nat;
  acc_uniques : list string;
  acc_samples : list string
}.

Definition empty_acc : col_acc :=
  {| acc_missing := 0; acc_uniques := []; acc_samples := [] |}.

(** Lines 108-119: for the first 3 batches, while the tracker holds fewer
    than 1000 values, the first 100 distinct non-missing values of the
    batch are appended when not yet tracked. *)
Definition track_unique (i : nat) (vals : list cell) (tr : list string)
  : list string :=
  if Nat.ltb i 3 && Nat.ltb (List.length tr) 1000 then
    fold_left
      (fun tr val =>
         let val_safe := safe_convert_value val in
         if str_mem val_safe tr then tr else tr ++ [val_safe])
      (firstn 100 (unique (dropna vals))) tr
  else tr.

(** Lines 121-129. *)
Definition collect_samples (vals : list cell) (sv : list string) : list string :=
  if Nat.ltb (List.length sv) 3 then
    fold_left
      (fun sv val =>
         if Nat.ltb (List.length sv) 3 then sv ++ [safe_convert_value val] else sv)
      (firstn 3 (dropna vals)) sv
  else sv.

(** The body of [for col in columns] for batch [i]. *)
Definition scan_column (i : nat) (chunk : list (list cell)) (j : nat) (a : col_acc)
  : col_acc :=
  let vals := col_values j chunk in
  {| acc_missing := acc_missing a + isnull_sum vals;
     acc_uniques := track_unique i vals (acc_uniques a);
     acc_samples := collect_samples vals (acc_samples a) |}.

Definition scan_chunk (i : nat) (chunk : list (list cell)) (accs : list col_acc)
  : list col_acc :=
  map (fun ja => scan_column i chunk (fst ja) (snd ja))
      (combine (seq 0 (List.length accs)) accs).

(** [for i, chunk in enumerate(chunk_iterator)]: each raw batch is parsed
    strictly when it is read, then counted and scanned. *)
Fixpoint scan_chunks (ncols i : nat) (raw : list (list (list string)))
  (total_rows : nat) (accs : list col_acc) : exc (nat * list col_acc) :=
  match raw with
  | [] => ret (total_rows, accs)
  | c :: raw' =>
      chunk <- parse_strict ncols c ;;
      scan_chunks ncols (S i) raw' (total_rows + List.length chunk)
                  (scan_chunk i chunk accs)
  end.

(* ------------------------------------------------------------------ *)
(** ** Duplicate estimate *)

Fixpoint cell_list_eqb (r1 r2 : list cell) : bool :=
  match r1, r2 with
  | [], [] => true
  | None :: r1', None :: r2' => cell_list_eqb r1' r2'
  | Some a :: r1', Some b :: r2' => String.eqb a b && cell_list_eqb r1' r2'
  | _, _ => false
  end.

(** [DataFrame.duplicated()] (keep='first', all columns; NaN equals NaN). *)
Fixpoint duplicated_aux (seen : list (list cell)) (rows : list (list cell))
  : list bool :=
  match rows with
  | [] => []
  | r :: rows' =>
      existsb (cell_list_eqb r) seen :: duplicated_aux (r :: seen) rows'
  end.

Definition duplicated (rows : list (list cell)) : list bool :=
  duplicated_aux [] rows.

Definition bool_sum (l : list bool) : nat :=
  List.length (filter (fun b => b) l).

Definition low_memory_msg : exn :=
  "The 'low_memory' option is not supported with the 'python' engine".

(** [pd.read_csv(f, nrows=k, dtype=str, low_memory=lm, engine="python",
    on_bad_lines="skip")]: the option check of [read_csv] refuses a
    [low_memory] other than its default [True] for the python engine,
    before the file is read. *)
Definition read_csv_python (low_memory : bool) (f : csv_file) (k : Z)
  : exc (list string * list (list cell)) :=
  if low_memory then read_csv_sample f k else raise low_memory_msg.

(** Lines 136-140, with [low_memory=False].  The Python expression
    [int(d * (total_rows / max(len(sample_df), 1)))] is evaluated in floats;
    here it is the exact value truncated, [(d * total_rows) / max(len, 1)]. *)
Definition duplicate_estimate (f : csv_file) (sample_size : Z) (total_rows : nat)
  : nat :=
  match read_csv_python false f (Z.min sample_size (Z.of_nat total_rows)) with
  | inl _ => 0
  | inr (_, sample_df) =>
      (bool_sum (duplicated sample_df) * total_rows)
        / Nat.max (List.length sample_df) 1
  end.

(** The estimate the specification describes: the exact duplicates of the
    first [min(sample_size, total_rows)] rows that parse, times
    [total_rows / len(sample)], truncated; 0 when the sample cannot be read. *)
Definition spec_duplicate_estimate (f : csv_file) (sample_size : Z) (total_rows : nat)
  : nat :=
  match read_csv_sample f (Z.min sample_size (Z.of_nat total_rows)) with
  | inl _ => 0
  | inr (_, sample) =>
      (bool_sum (duplicated sample) * total_rows) / Nat.max (List.length sample) 1
  end.

(* ------------------------------------------------------------------ *)
(** ** The quality report *)

(** [unique_values]: [int(unique_count)] or the sentinel ["1000+"]. *)
Inductive unique_field :=
| UCount (n : nat)
| UCapped.

Record col_profile := {
  dtype : string;
  missing_count : nat;
  col_missing_percentage : Q;
  unique_values : unique_field;
  sample_values : list string
}.

(** Lines 166-173. *)
Definition fallback_profile : col_profile :=
  {| dtype := "unknown"; missing_count := 0; col_missing_percentage := 0%Q;
     unique_values := UCount 0; sample_values := [] |}.

Record quality_report := {
  total_rows : nat;
  total_columns : nat;
  total_cells : nat;
  missing_cells : nat;
  missing_percentage : Q;
  column_analysis : list (string * col_profile);
  duplicate_rows : nat;
  memory_usage : Q;
  is_large_file : bool
}.

Definition nat_Q (n : nat) : Q := inject_Z (Z.of_nat n).

(** [round(float(num / den * 100), 2) if den > 0 else 0.0]. *)
Definition percentage (num den : nat) : Q :=
  if Nat.ltb 0 den then round2 (nat_Q num / nat_Q den * 100)%Q else 0%Q.

(** The [try] body of lines 156-164; none of its steps raises. *)
Definition column_profile (dtypes : list (string * string)) (total_rows : nat)
  (col : string) (a : col_acc) : exc col_profile :=
  let unique_count := List.length (acc_uniques a) in
  ret {| dtype := match dict_get col dtypes with Some d => d | None => "object" end;
         missing_count := acc_missing a;
         col_missing_percentage := percentage (acc_missing a) total_rows;
         unique_values :=
           if Nat.ltb unique_count 1000 then UCount unique_count else UCapped;
         sample_values := firstn 3 (acc_samples a) |}.

(** Lines 155-173. *)
Definition build_column_analysis (dtypes : list (string * string))
  (total_rows : nat) (columns : list string) (accs : list col_acc)
  : list (string * col_profile) :=
  fold_left
    (fun ca ca_col =>
       let '(col, a) := ca_col in
       match column_profile dtypes total_rows col a with
       | inr p => dict_set col p ca
       | inl _ => dict_set col fallback_profile ca
       end)
    (combine columns accs) [].

(** Lines 82-87. *)
Definition probe_dtypes (columns : list string) (first_chunk : list (list cell))
  : list (string * string) :=
  fold_left
    (fun d jc => dict_set (snd jc) (text_series_dtype (col_values (fst jc) first_chunk)) d)
    (combine (seq 0 (List.length columns)) columns) [].

Definition analyze_error_prefix : string := "Error analyzing CSV: ".

(** [analyze_csv_quality_chunked(file_path, sample_size)] with the batch size
    of the full scan as a parameter ([CHUNK_SIZE] in the source) and the file
    size in bytes given by [os.path.getsize]. *)
Definition analyze_csv_quality_chunked_with (chunk_size : nat) (f : csv_file)
  (file_size : nat) (sample_size : Z) : exc quality_report :=
  let body :=
    probe <- read_csv_nrows f 1000 ;;
    let columns := fst probe in
    let dtypes := probe_dtypes columns (snd probe) in
    it <- read_csv_chunks f chunk_size ;;
    sc <- scan_chunks (List.length columns) 0 (snd it) 0
                      (map (fun _ => empty_acc) columns) ;;
    let total_rows := fst sc in
    let accs := snd sc in
    let total_columns := List.length columns in
    let total_cells := total_rows * total_columns in
    let total_missing := sum_nat (map acc_missing accs) in
    let dup := duplicate_estimate f sample_size total_rows in
    ret {| total_rows := total_rows;
           total_columns := total_columns;
           total_cells := total_cells;
           missing_cells := total_missing;
           missing_percentage := percentage total_missing total_cells;
           column_analysis := build_column_analysis dtypes total_rows columns accs;
           duplicate_rows := dup;
           memory_usage := round2 (nat_Q file_size / 1024 / 1024)%Q;
           is_large_file := Nat.ltb 50000 total_rows |}
  in
  match body with
  | inl e => inl (analyze_error_prefix ++ e)%string
  | inr r => inr r
  end.

Definition analyze_csv_quality_chunked (f : csv_file) (file_size : nat)
  (sample_size : Z) : exc quality_report :=
  analyze_csv_quality_chunked_with CHUNK_SIZE f file_size sample_size.

(** Parseable: a header and every record with at most as many fields. *)
Definition parseable (f : csv_file) : bool :=
  negb (match header f with [] => true | _ => false end) &&
  match parse_strict (List.length (header f)) (records f) with
  | inr _ => true
  | inl _ => false
  end.

(** The default argument [sample_size=10000]. *)
Definition analyze (f : csv_file) (file_size : nat) : exc quality_report :=
  analyze_csv_quality_chunked f file_size 10000.

(** Test data: the decimal text of a number. *)
Fixpoint digits_fuel (fuel n : nat) (acc : string) : string :=
  match fuel with
  | 0 => acc
  | S fuel' =>
      let acc' := String (ascii_of_nat (48 + n mod 10)) acc in
      if Nat.ltb n 10 then acc' else digits_fuel fuel' (n / 10) acc'
  end.

Definition decimal (n : nat) : string := digits_fuel 20 n "".

(** A column of 2000 distinct values. *)
Definition distinct2000 : csv_file :=
  {| header := ["id"];
     records := map (fun n => [("v" ++ decimal n)%string]) (seq 0 2000) |}.

(** The file [a,b\n1,2\n3,\n5,6\n]. *)
Definition small_file : csv_file :=
  {| header := ["a"; "b"]; records := [["1"; "2"]; ["3"; ""]; ["5"; "6"]] |}.

(** A header with a repeated name and an empty one: the columns are
    [a], [a.1] and [Unnamed: 2]. *)
Definition dup_header_file : csv_file :=
  {| header := ["a"; "a"; ""]; records := [["1"; ""; ""]; [""; "2"; "3"]] |}.

(* ------------------------------------------------------------------ *)
(** ** String methods used on column names and paths *)

(** Python's [str.isspace] on ASCII characters (also [\x1c]-[\x1f]). *)
Definition is_py_space (c : ascii) : bool :=
  let n := nat_of_ascii c in
  (Nat.leb 9 n && Nat.leb n 13) || (Nat.leb 28 n && Nat.leb n 32).

Fixpoint lstrip (s : string) : string :=
  match s with
  | EmptyString => EmptyString
  | String c s' => if is_py_space c then lstrip s' else s
  end.

Fixpoint rev_str (s : string) (acc : string) : string :=
  match s with
  | EmptyString => acc
  | String c s' => rev_str s' (String c acc)
  end.

(** [str.strip()]. *)
Definition strip (s : string) : string :=
  rev_str (lstrip (rev_str (lstrip s) EmptyString)) EmptyString.

(** [str.lower()] (on the ASCII letters). *)
Fixpoint lower (s : string) : string :=
  match s with
  | EmptyString => EmptyString
  | String c s' =>
      let n := nat_of_ascii c in
      let c' := if Nat.leb 65 n && Nat.leb n 90 then ascii_of_nat (n + 32) else c in
      String c' (lower s')
  end.

(** [str.replace(old, new)] for a one-character [old]. *)
Fixpoint replace_char (old new : ascii) (s : string) : string :=
  match s with
  | EmptyString => EmptyString
  | String c s' =>
      String (if Ascii.eqb c old then new else c) (replace_char old new s')
  end.

(** [str.replace(old, new)]: every non-overlapping occurrence, left to
    right; [old] is nonempty at the call site. *)
Fixpoint replace_fuel (fuel : nat) (old new s : string) : string :=
  match fuel with
  | 0 => s
  | S fuel' =>
      match s with
      | EmptyString => EmptyString
      | String c s' =>
          if String.prefix old s && negb (String.eqb old "")
          then (new ++ replace_fuel fuel'
                   old new (substring (String.length old)
                              (String.length s - String.length old) s))%string
          else String c (replace_fuel fuel' old new s')
      end
  end.

Definition str_replace (old new s : string) : string :=
  replace_fuel (String.length s) old new s.


(** [col.strip().lower().replace(' ', '_')]. *)
Definition standardize_name (col : string) : string :=
  replace_char " "%char "_"%char (lower (strip col)).

(** [",".join(header)]: the header line [to_csv] writes for plain names. *)
Fixpoint join_comma (l : list string) : string :=
  match l with
  | [] => ""
  | [x] => x
  | x :: l' => (x ++ "," ++ join_comma l')%string
  end.

(* ------------------------------------------------------------------ *)
(** ** The pandas operations used by the transform *)

(** Without [dtype=str], [read_csv] types every column of a batch from all
    of its cells; the operations of pandas the transform calls are the
    interface below, over the type [V] of typed cell values. *)
Class Pandas (V : Type) := {
  (** the typed value of a cell, given the raw cells of its column *)
  read_value : list cell -> cell -> V;
  val_eqb : V -> V -> bool;
  val_isna : V -> bool;
  (** [select_dtypes(include=['number'])], [include=['object']] *)
  is_number_col : list V -> bool;
  is_object_col : list V -> bool;
  series_mean : list V -> V;
  series_median : list V -> V;
  (** [Series.mode()] *)
  series_mode : list V -> list V;
  (** [astype(str).str.strip()] on one value *)
  str_strip_value : V -> V;
  (** [pd.to_numeric] on one value; [None] when it raises *)
  to_numeric_value : V -> option V
}.

(** A JSON value as [json.dumps] serialises it. *)
#[warnings="-register-all"]
Inductive json :=
| JInt (n : nat)
| JObj (kv : list (string * json)).

(** A [redis_conn.setex(key, ttl, value)] call. *)
Record setex_call := {
  sx_key : string;
  sx_ttl : nat;
  sx_value : json
}.

Definition progress_json (n : nat) : json := JObj [("rows_processed", JInt n)].

(* ------------------------------------------------------------------ *)
(** ** The transform engine *)

(** [options.get(...)]: missing keys are falsy. *)
Record options := {
  handle_missing : option string;
  trim_whitespace : bool;
  convert_types : bool;
  standardize_columns : bool;
  remove_duplicates : bool
}.

Section Transform.

Context {V : Type} `{Pandas V}.

(** A DataFrame: its column names and its rows (one value per column). *)
Record frame := {
  fcolumns : list string;
  frows : list (list V)
}.

(** [read_csv] without [dtype]: each column of the parsed rows is typed
    from all of its cells. *)
Definition typed_frame (cols : list string) (rows : list (list cell)) : frame :=
  {| fcolumns := cols;
     frows := map (fun r => map (fun jc => read_value (col_values (fst jc) rows) (snd jc))
                               (combine (seq 0 (List.length r)) r)) rows |}.

(** [df[col]] for the column at position [j]. *)
Definition get_col (j : nat) (rows : list (list V)) : list V :=
  flat_map (fun r => match nth_error r j with Some v => [v] | None => [] end) rows.

Fixpoint map_nth (j : nat) (g : V -> V) (r : list V) : list V :=
  match j, r with
  | _, [] => []
  | 0, v :: r' => g v :: r'
  | S j', v :: r' => v :: map_nth j' g r'
  end.

(** [df[col] = g(df[col])] for an elementwise [g]. *)
Definition update_col (j : nat) (g : V -> V) (df : frame) : frame :=
  {| fcolumns := fcolumns df; frows := map (map_nth j g) (frows df) |}.

Definition fillna (x : V) (v : V) : V := if val_isna v then x else v.

Definition col_indices (df : frame) : list nat := seq 0 (List.length (fcolumns df)).

(** [df.dropna()]. *)
Definition frame_dropna (df : frame) : frame :=
  {| fcolumns := fcolumns df;
     frows := filter (fun r => negb (existsb val_isna r)) (frows df) |}.

Fixpoint row_eqb (r1 r2 : list V) : bool :=
  match r1, r2 with
  | [], [] => true
  | a :: r1', b :: r2' => val_eqb a b && row_eqb r1' r2'
  | _, _ => false
  end.

Fixpoint drop_dup_aux (seen : list (list V)) (rows : list (list V)) : list (list V) :=
  match rows with
  | [] => []
  | r :: rows' =>
      if existsb (row_eqb r) seen then drop_dup_aux seen rows'
      else r :: drop_dup_aux (r :: seen) rows'
  end.

(** [df.drop_duplicates()]: keep the first of equal rows, all columns. *)
Definition drop_duplicates (df : frame) : frame :=
  {| fcolumns := fcolumns df; frows := drop_dup_aux [] (frows df) |}.

(** [for col in <selected columns>: df[col] = df[col].fillna(stat(df[col]))] *)
Definition fill_numeric (stat : list V -> V) (df : frame) : frame :=
  fold_left
    (fun df j =>
       let c := get_col j (frows df) in
       if is_number_col c then update_col j (fillna (stat c)) df else df)
    (col_indices df) df.

(** Lines 271-276.  [df[col]] is a new Series: under the copy-on-write of
    pandas 3, [fillna(mode_value[0], inplace=True)] fills that Series and
    leaves [df] as it is. *)
Definition fill_mode (df : frame) : frame :=
  fold_left
    (fun df j =>
       let c := get_col j (frows df) in
       if existsb val_isna c then
         match series_mode c with
         | m :: _ => let _filled := map (fillna m) c in df
         | [] => df
         end
       else df)
    (col_indices df) df.

(** Lines 279-281. *)
Definition trim_columns (df : frame) : frame :=
  fold_left
    (fun df j =>
       if is_object_col (get_col j (frows df)) then update_col j str_strip_value df
       else df)
    (col_indices df) df.

(** Lines 284-289: [pd.to_numeric] on a column raises unless every value
    converts; the [except] leaves the column as it is. *)
Definition convert_columns (df : frame) : frame :=
  fold_left
    (fun df j =>
       let c := get_col j (frows df) in
       if forallb (fun v => match to_numeric_value v with Some _ => true | None => false end) c
       then update_col j (fun v => match to_numeric_value v with Some w => w | None => v end) df
       else df)
    (col_indices df) df.

(** [apply_preprocessing_options(df, options)]. *)
Definition apply_preprocessing_options (df : frame) (o : options) : frame :=
  let df :=
    match handle_missing o with
    | Some "drop" => frame_dropna df
    | Some "fill_mean" => fill_numeric series_mean df
    | Some "fill_median" => fill_numeric series_median df
    | Some "fill_mode" => fill_mode df
    | _ => df
    end in
  let df := if trim_whitespace o then trim_columns df else df in
  if convert_types o then convert_columns df else df.


(** The effects of a transform run: the files it writes and the progress
    writes it sends to redis, in order. *)
Record out_file := {
  out_header : list string;
  out_rows : list (list V)
}.

Record world := {
  outputs : list (string * out_file);
  redis_log : list setex_call
}.

(** A state and exception monad over [world]. *)
Definition M (A : Type) := world -> exc A * world.

Definition mret {A} (a : A) : M A := fun w => (inr a, w).

Definition mbind {A B} (m : M A) (k : A -> M B) : M B :=
  fun w => match m w with
           | (inl e, w') => (inl e, w')
           | (inr a, w') => k a w'
           end.

Definition lift {A} (x : exc A) : M A := fun w => (x, w).

(** [try: ... except Exception as e: ...]. *)
Definition mcatch {A} (m : M A) (h : exn -> M A) : M A :=
  fun w => match m w with
           | (inl e, w') => h e w'
           | r => r
           end.

Local Notation "x <-- m ;;; k" := (mbind m (fun x => k))
  (at level 61, m at next level, right associativity).

(** [df.to_csv(path, index=False)] / [mode='w']: header and rows. *)
Definition to_csv_write (path : string) (df : frame) : M unit :=
  fun w => (inr tt,
            {| outputs := dict_set path {| out_header := fcolumns df;
                                          out_rows := frows df |} (outputs w);
               redis_log := redis_log w |}).

(** [df.to_csv(path, index=False, mode='a', header=False)]. *)
Definition to_csv_append (path : string) (df : frame) : M unit :=
  fun w =>
    let old := match dict_get path (outputs w) with
               | Some o => o
               | None => {| out_header := []; out_rows := [] |}
               end in
    (inr tt,
     {| outputs := dict_set path {| out_header := out_header old;
                                   out_rows := out_rows old ++ frows df |} (outputs w);
        redis_log := redis_log w |}).

(** [redis_conn.setex(key, ttl, value)]. *)
Definition setex (key : string) (ttl : nat) (v : json) : M unit :=
  fun w => (inr tt, {| outputs := outputs w;
                      redis_log := redis_log w ++ [{| sx_key := key; sx_ttl := ttl;
                                                      sx_value := v |}] |}).

Definition length_mismatch_msg : exn := "Length mismatch".

(** [chunk.columns = columns]. *)
Definition set_columns (cols : list string) (df : frame) : exc frame :=
  if Nat.eqb (List.length cols) (List.length (fcolumns df))
  then ret {| fcolumns := cols; frows := frows df |}
  else raise length_mismatch_msg.

Definition file_not_found_msg : exn := "No such file or directory".

(** [pd.read_csv(file_path)]: the file system maps paths to files. *)
Definition open_csv (fs : string -> option csv_file) (path : string) : exc csv_file :=
  match fs path with
  | Some f => ret f
  | None => raise file_not_found_msg
  end.

(** The returned dict of the task. *)
Record transform_result := {
  status : string;
  output_path : option string;
  rows_processed : option nat;
  rows_removed : option nat;
  result_columns : option (list string);
  error : option string
}.

Definition error_result (e : exn) : transform_result :=
  {| status := "error"; output_path := None; rows_processed := None;
     rows_removed := None; result_columns := None; error := Some e |}.

(** One streamed batch: lines 220-242. *)
Definition stream_chunk (o : options) (ncols : nat) (columns : list string)
  (file_path out_path : string) (is_first : bool) (total : nat)
  (hdr : list string) (c : list (list string)) : M nat :=
  rows <-- lift (parse_strict ncols c) ;;;
  let chunk := typed_frame hdr rows in
  chunk <-- (if standardize_columns o then lift (set_columns columns chunk)
             else mret chunk) ;;;
  let chunk := apply_preprocessing_options chunk o in
  _ <-- (if is_first then to_csv_write out_path chunk
         else to_csv_append out_path chunk) ;;;
  let total := total + List.length (frows chunk) in
  _ <-- setex ("progress:" ++ file_path)%string 300 (progress_json total) ;;;
  mret total.

Fixpoint stream_chunks (o : options) (ncols : nat) (columns : list string)
  (file_path out_path : string) (is_first : bool) (total : nat)
  (hdr : list string) (raw : list (list (list string))) : M nat :=
  match raw with
  | [] => mret total
  | c :: raw' =>
      total' <-- stream_chunk o ncols columns file_path out_path is_first total hdr c ;;;
      stream_chunks o ncols columns file_path out_path false total' hdr raw'
  end.

(** The [try] body of [preprocess_csv_task_chunked], with the batch size of
    the streaming mode as a parameter ([CHUNK_SIZE] in the source). *)
Definition preprocess_body (chunk_size : nat) (fs : string -> option csv_file)
  (file_path : string) (o : options) : M transform_result :=
  let out_path := str_replace ".csv" "_processed.csv" file_path in
  f <-- lift (open_csv fs file_path) ;;;
  first <-- lift (read_csv_nrows f 100) ;;;
  let hdr := fst first in
  let columns := if standardize_columns o then map standardize_name hdr else hdr in
  if remove_duplicates o then
    rows <-- lift (parse_strict (List.length hdr) (records f)) ;;;
    let df := typed_frame hdr rows in
    let original_rows := List.length (frows df) in
    let df := drop_duplicates df in
    let total_rows_processed := List.length (frows df) in
    let df := apply_preprocessing_options df o in
    _ <-- to_csv_write out_path df ;;;
    mret {| status := "success"; output_path := Some out_path;
            rows_processed := Some total_rows_processed;
            rows_removed := Some (original_rows - total_rows_processed);
            result_columns := Some (fcolumns df); error := None |}
  else
    it <-- lift (read_csv_chunks f chunk_size) ;;;
    total <-- stream_chunks o (List.length hdr) columns file_path out_path true 0
                            hdr (snd it) ;;;
    mret {| status := "success"; output_path := Some out_path;
            rows_processed := Some total; rows_removed := None;
            result_columns := Some columns; error := None |}.

(** [preprocess_csv_task_chunked(file_path, options)]. *)
Definition preprocess_csv_task_chunked_with (chunk_size : nat)
  (fs : string -> option csv_file) (file_path : string) (o : options)
  : M transform_result :=
  mcatch (preprocess_body chunk_size fs file_path o)
         (fun e => mret (error_result e)).

Definition preprocess_csv_task_chunked (fs : string -> option csv_file)
  (file_path : string) (o : options) : M transform_result :=
  preprocess_csv_task_chunked_with CHUNK_SIZE fs file_path o.

End Transform.

Arguments frame V : clear implicits.
Arguments out_file V : clear implicits.
Arguments world V : clear implicits.
Arguments M V A : clear implicits.

(** The progress write for [n] rows of the input at [file_path]:
    [setex(f"progress:{file_path}", 300, json.dumps({'rows_processed': n}))]. *)
Definition progress_write (file_path : string) (n : nat) : setex_call :=
  {| sx_key := ("progress:" ++ file_path)%string; sx_ttl := 300;
     sx_value := progress_json n |}.


(* ------------------------------------------------------------------ *)
(** ** pandas on columns of non-numeric text *)

(** For a column whose cells are non-numeric text, also once stripped,
    [read_csv] keeps the strings and NaN; [astype(str).str.strip()] keeps
    NaN (pandas 3), [to_numeric] raises on it, it is not selected by
    [include=['number']] and the trim step treats it as a text column. *)
Definition cell_eqb (a b : cell) : bool :=
  match a, b with
  | None, None => true
  | Some x, Some y => String.eqb x y
  | _, _ => false
  end.

Definition cell_isna (a : cell) : bool :=
  match a with None => true | Some _ => false end.

Definition count_str (x : string) (l : list string) : nat :=
  List.length (filter (String.eqb x) l).

(** Insertion into a sorted list of strings (code point order). *)
Fixpoint insert_str (x : string) (l : list string) : list string :=
  match l with
  | [] => [x]
  | y :: l' => if String.leb x y then x :: l else y :: insert_str x l'
  end.

Definition sort_str (l : list string) : list string := fold_right insert_str [] l.

(** [Series.mode()] of a text column: its most frequent values, sorted. *)
Definition text_mode (c : list cell) : list cell :=
  let vals := dropna c in
  let mx := fold_right Nat.max 0 (map (fun x => count_str x vals) vals) in
  map Some (sort_str (filter (fun x => Nat.eqb (count_str x vals) mx) (unique vals))).

#[export] Instance text_pandas : Pandas cell := {|
  read_value := fun _ c => c;
  val_eqb := cell_eqb;
  val_isna := cell_isna;
  is_number_col := fun _ => false;
  is_object_col := fun _ => true;
  series_mean := fun _ => None;
  series_median := fun _ => None;
  series_mode := text_mode;
  str_strip_value := fun v => match v with Some s => Some (strip s) | None => None end;
  to_numeric_value := fun _ => None
|}.

Definition empty_world : world cell := {| outputs := []; redis_log := [] |}.

Definition default_options : options :=
  {| handle_missing := None; trim_whitespace := false; convert_types := false;
     standardize_columns := false; remove_duplicates := false |}.

Definition names_file : csv_file :=
  {| header := ["First Name"; "Last Name"];
     records := [["Ada"; "Lovelace"]; ["Alan"; "Turing"]] |}.

Definition names_fs (p : string) : option csv_file :=
  if String.eqb p "up/names.csv" then Some names_file else None.

(** The header of the output file after a run. *)
Definition output_header_line (w : world cell) (path : string) : option string :=
  option_map (fun o => join_comma (out_header o)) (dict_get path (outputs w)).

(** Options of a run: renaming on, deduplication as given. *)
Definition rename_options (dedup : bool) : options :=
  {| handle_missing := None; trim_whitespace := false; convert_types := false;
     standardize_columns := true; remove_duplicates := dedup |}.

(** Five records, the third a copy of the first. *)
Definition dup_file : csv_file :=
  {| header := ["k"; "v"];
     records := [["1"; "a"]; ["2"; "b"]; ["1"; "a"]; ["3"; "c"]; ["4"; "d"]] |}.

Definition dup_fs (p : string) : option csv_file :=
  if String.eqb p "up/dup.csv" then Some dup_file else None.

Definition dedup_options : options :=
  {| handle_missing := None; trim_whitespace := false; convert_types := false;
     standardize_columns := false; remove_duplicates := true |}.


(** A header and no records. *)
Definition header_only : csv_file := {| header := ["a"; "b"]; records := [] |}.

(* ------------------------------------------------------------------ *)
(** ** Subsequences *)

(** A subsequence of a list: the list with some elements left out. *)
Inductive subseq {A} : list A -> list A -> Prop :=
| subseq_nil : subseq [] []
| subseq_keep x l l' : subseq l l' -> subseq (x :: l) (x :: l')
| subseq_skip x l l' : subseq l l' -> subseq l (x :: l').

(* ------------------------------------------------------------------ *)
(** ** File names and paths *)

(** Python's [c in s] for a one-character [c]. *)
Fixpoint has_char (c : ascii) (s : string) : bool :=
  match s with
  | EmptyString => false
  | String c' s' => Ascii.eqb c' c || has_char c s'
  end.

(** [s.rsplit('.', 1)]: the text before and after the last ['.'], or the
    whole text when it holds no ['.']. *)
Fixpoint rsplit_dot (s : string) : list string :=
  match s with
  | EmptyString => [EmptyString]
  | String c s' =>
      match rsplit_dot s' with
      | [x] => if Ascii.eqb c "."%char then [EmptyString; x] else [String c x]
      | [p; x] => [String c p; x]
      | l => l
      end
  end.

Definition ALLOWED_EXTENSIONS : list string := ["csv"].

(** [allowed_file(filename)]: [and] short-circuits, so the index [1] is
    only taken when the name holds a ['.'] (and then there are two parts). *)
Definition allowed_file (filename : string) : bool :=
  has_char "."%char filename &&
  match rsplit_dot filename with
  | [_; ext] => str_mem (lower ext) ALLOWED_EXTENSIONS
  | _ => false
  end.

(** [os.path.join(a, b)] (posixpath). *)
Definition path_join (a b : string) : string :=
  if String.prefix "/" b then b
  else if String.eqb a "" || String.eqb (substring (String.length a - 1) 1 a) "/"
  then (a ++ b)%string
  else (a ++ "/" ++ b)%string.

(** [str(n)] for an integer. *)
Definition z_decimal (z : Z) : string :=
  if (z <? 0)%Z then ("-" ++ decimal (Z.to_nat (- z)))%string
  else decimal (Z.to_nat z).

(* ------------------------------------------------------------------ *)
(** ** The [token_required] decorator *)

(** [s.split(sep)] for a one-character [sep]. *)
Fixpoint split_char (sep : ascii) (s : string) : list string :=
  match s with
  | EmptyString => [EmptyString]
  | String c s' =>
      if Ascii.eqb c sep then EmptyString :: split_char sep s'
      else match split_char sep s' with
           | h :: t => String c h :: t
           | [] => [String c EmptyString]
           end
  end.

(** What [jwt.decode] does with a token: the payload dict, or one of the
    two exceptions the decorator catches. *)
Inductive decode_result (PyVal : Type) :=
| DecOk (payload : list (string * PyVal))
| DecExpired
| DecInvalid.
Arguments DecOk {PyVal}.
Arguments DecExpired {PyVal}.
Arguments DecInvalid {PyVal}.

(** The outcome of the decorator: a 401 answer, an exception that escapes
    it (Flask answers 500), or the call of the view with [request.user_id]. *)
Inductive auth_outcome :=
| AuthDenied (msg : string)
| AuthCrash (exc_name : string)
| AuthOk (user_id : Z).

Section Auth.

Context {PyVal : Type}.
(** [jwt.decode(token, SECRET_KEY, algorithms=['HS256'])]. *)
Variable jwt_decode : string -> decode_result PyVal.
(** [int(v)]; [None] when it raises. *)
Variable py_int : PyVal -> option Z.

(** The wrapper [decorated] of [token_required]: [authorization] is
    [request.headers.get('Authorization')]. *)
Definition token_required (authorization : option string) : auth_outcome :=
  match authorization with
  | None => AuthDenied "Token is missing"
  | Some h =>
      if String.eqb h "" then AuthDenied "Token is missing"
      else
        match nth_error (split_char " "%char h) 1 with
        | None => AuthCrash "IndexError"
        | Some token =>
            match jwt_decode token with
            | DecExpired => AuthDenied "Token has expired"
            | DecInvalid => AuthDenied "Invalid token"
            | DecOk data =>
                match dict_get "user_id" data with
                | None => AuthCrash "KeyError"
                | Some v =>
                    match py_int v with
                    | None => AuthCrash "ValueError"
                    | Some uid => AuthOk uid
                    end
                end
            end
        end
  end.

End Auth.

(* ------------------------------------------------------------------ *)
(** ** Server state: the upload folder and redis *)

(** The metadata [upload_csv] stores for a file. *)
Record file_meta := {
  original_filename : string;
  meta_file_path : string;
  uploaded_at : string;
  meta_user_id : Z;
  meta_file_size : nat
}.

(** A redis value: the metadata of an upload or a progress JSON. *)
Inductive redis_value :=
| RMeta (m : file_meta)
| RJson (j : json).

(** A file on disk: its contents and its size in bytes. *)
Record stored := {
  st_file : csv_file;
  st_size : nat
}.

(** The disk and redis; a redis key holds its value and the second at
    which it expires. *)
Record server := {
  disk : list (string * stored);
  rstore : list (string * (redis_value * nat))
}.

Definition dict_del {A} (k : string) (d : list (string * A)) : list (string * A) :=
  filter (fun kv => negb (String.eqb k (fst kv))) d.

(** [redis_conn.setex(key, ttl, v)] at second [clock]. *)
Definition redis_setex (clock : nat) (key : string) (ttl : nat) (v : redis_value)
  (st : list (string * (redis_value * nat))) : list (string * (redis_value * nat)) :=
  dict_set key (v, clock + ttl) st.

(** [redis_conn.get(key)] at second [clock]: [None] once the key expired. *)
Definition redis_get (clock : nat) (key : string)
  (st : list (string * (redis_value * nat))) : option redis_value :=
  match dict_get key st with
  | Some (v, exp) => if Nat.ltb clock exp then Some v else None
  | None => None
  end.

(** The progress writes of a transform run sent to redis at second
    [clock]. *)
Definition apply_setex_log (clock : nat) (log : list setex_call)
  (st : list (string * (redis_value * nat))) : list (string * (redis_value * nat)) :=
  fold_left (fun st c => redis_setex clock (sx_key c) (sx_ttl c) (RJson (sx_value c)) st)
            log st.

(** [os.remove(file_path)]. *)
Definition remove_file (path : string) (srv : server) : server :=
  {| disk := dict_del path (disk srv); rstore := rstore srv |}.

(** [MAX_FILE_SIZE = 100 * 1024 * 1024]. *)
Definition MAX_FILE_SIZE : nat := 100 * 1024 * 1024.

(** [f'File size exceeds {MAX_FILE_SIZE / 1024 / 1024}MB limit']: the
    float [100.0] is printed. *)
Definition size_msg : string := "File size exceeds 100.0MB limit".

(* ------------------------------------------------------------------ *)
(** ** The routes *)

(** The uploaded part of [request.files['file']]: its file name and the
    file it saves. *)
Record upload_req := {
  up_user : Z;
  up_file : option (string * stored)
}.

Inductive upload_resp (PV : Type) :=
| UploadError (code : nat) (msg : string)
| UploadOk (file_id : string) (file_size_mb : Q) (preview : list (list (string * PV)))
           (report : quality_report) (large : bool).
Arguments UploadError {PV}.
Arguments UploadOk {PV}.

(** The answer of [/preprocess]; [PreCrash] is an exception that escapes
    the view. *)
Inductive preprocess_resp :=
| PreError (code : nat) (msg : string)
| PreQueued (task_id : string)
| PreCrash (exc_name : string).

(** A job of the queue: [task_queue.enqueue(preprocess_csv_task_chunked,
    file_path, options)]. *)
Record job := {
  job_id : string;
  job_path : string;
  job_options : options
}.

Inductive download_resp :=
| DlError (code : nat) (msg : string)
| DlSend (path : string) (download_name : string)
| DlCrash (exc_name : string).

(** The state of an rq job as [Job.fetch] finds it. *)
Inductive job_state :=
| JobFinished (result : transform_result)
| JobFailed (exc_info : string)
| JobRunning (meta_progress : option nat).

Record rq_job := {
  rq_id : string;
  rq_args0 : string;
  rq_state : job_state
}.

Inductive status_resp :=
| StCompleted (result : transform_result)
| StFailed (error : string)
| StProcessing (progress : nat) (rows_processed : json)
| StNotFound (msg : string).

Section Routes.

Context {V : Type} `{Pandas V}.
(** [os.path.join(BASE_DIR, "uploads")]. *)
Variable UPLOAD_FOLDER : string.
(** [werkzeug.utils.secure_filename]. *)
Variable secure_filename : string -> string.
(** The value of a preview record: [safe_convert_value(row[col])] for a
    row of [iterrows()], given the whole typed row. *)
Context {PV : Type}.
Variable iter_row : list V -> list PV.

(** Lines 322-341: the first 10 records read leniently, typed, as dicts;
    a file [read_csv] refuses gives the empty frame. *)
Definition preview_records (f : csv_file) : list (list (string * PV)) :=
  match read_csv_sample f 10 with
  | inl _ => []
  | inr (cols, rows) =>
      map (fun row =>
             fold_left (fun record cv => dict_set (fst cv) (snd cv) record)
                       (combine cols (iter_row row)) [])
          (frows (typed_frame cols rows))
  end.

(** [upload_csv()] after authentication as [user_id]; [stamp] is
    [datetime.now().strftime('%Y%m%d_%H%M%S')], [iso] is
    [datetime.now().isoformat()] and [clock] the current second. *)
Definition upload_csv (clock : nat) (stamp iso : string) (req : upload_req) (srv : server)
  : upload_resp PV * server :=
  match up_file req with
  | None => (UploadError 400 "No file provided", srv)
  | Some (fname, content) =>
      if String.eqb fname "" then (UploadError 400 "No file selected", srv)
      else if negb (allowed_file fname) then
        (UploadError 400 "Invalid file type. Only CSV files are allowed", srv)
      else
        let filename := secure_filename fname in
        let unique_filename :=
          (z_decimal (up_user req) ++ "_" ++ stamp ++ "_" ++ filename)%string in
        let file_path := path_join UPLOAD_FOLDER unique_filename in
        let srv1 := {| disk := dict_set file_path content (disk srv);
                       rstore := rstore srv |} in
        let file_size := st_size content in
        if Nat.ltb MAX_FILE_SIZE file_size then
          (UploadError 400 size_msg, remove_file file_path srv1)
        else
          let preview := preview_records (st_file content) in
          match analyze_csv_quality_chunked (st_file content) file_size 10000 with
          | inl e =>
              (* [analyze_csv_quality_chunked] raises a plain [Exception], so
                 only the last handler matches *)
              (UploadError 500 ("Upload failed: " ++ e)%string,
               remove_file file_path srv1)
          | inr report =>
              let meta := {| original_filename := filename;
                             meta_file_path := file_path;
                             uploaded_at := iso;
                             meta_user_id := up_user req;
                             meta_file_size := file_size |} in
              (UploadOk unique_filename (round2 (nat_Q file_size / 1024 / 1024)%Q)
                        preview report (is_large_file report),
               {| disk := disk srv1;
                  rstore := redis_setex clock ("csv_file:" ++ unique_filename)%string
                              7200 (RMeta meta) (rstore srv1) |})
          end
  end.

End Routes.

(** [preprocess_csv()] with [data.get('file_id')] and
    [data.get('options', {})]; [new_id] is the id rq gives the job. *)
Definition preprocess_csv (clock : nat) (file_id : option string) (o : options)
  (new_id : string) (srv : server) (q : list job) : preprocess_resp * list job :=
  match file_id with
  | None => (PreError 400 "File ID is required", q)
  | Some fid =>
      if String.eqb fid "" then (PreError 400 "File ID is required", q)
      else
        match redis_get clock ("csv_file:" ++ fid)%string (rstore srv) with
        | None => (PreError 404 "File not found or expired", q)
        | Some (RMeta m) =>
            (PreQueued new_id,
             q ++ [{| job_id := new_id; job_path := meta_file_path m; job_options := o |}])
        | Some (RJson _) => (PreCrash "KeyError", q)
        end
  end.

(** [download_processed_csv(file_id)]; [exists_file] is [os.path.exists]. *)
Definition download_processed_csv (clock : nat) (file_id : string) (srv : server)
  (exists_file : string -> bool) : download_resp :=
  match redis_get clock ("csv_file:" ++ file_id)%string (rstore srv) with
  | None => DlError 404 "File not found or expired"
  | Some (RMeta m) =>
      let file_path := str_replace ".csv" "_processed.csv" (meta_file_path m) in
      if negb (exists_file file_path) then DlError 404 "Processed file not found"
      else DlSend file_path ("processed_" ++ original_filename m)%string
  | Some (RJson _) => DlCrash "KeyError"
  end.

(** The answer of [/analyze]; [AnCrash] is an exception that escapes the
    view. *)
Inductive analyze_resp :=
| AnError (code : nat) (msg : string)
| AnOk (report : quality_report) (statistics : json)
| AnCrash (exc_name : string).

(** [analyze_csv(file_id)]. [statistics] is the inner [try] block on the
    first 10000 rows, which catches every exception and so always yields a
    dict; the file is read from the disk at the stored path. *)
Definition analyze_csv (statistics : csv_file -> json) (clock : nat) (file_id : string)
  (srv : server) : analyze_resp :=
  match redis_get clock ("csv_file:" ++ file_id)%string (rstore srv) with
  | None => AnError 404 "File not found or expired"
  | Some (RMeta m) =>
      match dict_get (meta_file_path m) (disk srv) with
      | None => AnError 500 ("Analysis failed: " ++ analyze_error_prefix ++ file_not_found_msg)%string
      | Some s =>
          match analyze_csv_quality_chunked (st_file s) (st_size s) 10000 with
          | inl e => AnError 500 ("Analysis failed: " ++ e)%string
          | inr report => AnOk report (statistics (st_file s))
          end
      end
  | Some (RJson _) => AnCrash "KeyError"
  end.

Section TaskStatus.

(** The message of rq's [NoSuchJobError] for a task id. *)
Variable no_such_job_msg : string -> string.

(** [get_task_status(task_id)]. *)
Definition get_task_status (clock : nat) (task_id : string) (jobs : list rq_job)
  (srv : server) : status_resp :=
  match find (fun j => String.eqb (rq_id j) task_id) jobs with
  | None => StNotFound ("Task not found: " ++ no_such_job_msg task_id)%string
  | Some j =>
      match rq_state j with
      | JobFinished r => StCompleted r
      | JobFailed info => StFailed info
      | JobRunning meta =>
          let progress := match meta with Some p => p | None => 0 end in
          match redis_get clock ("progress:" ++ rq_args0 j)%string (rstore srv) with
          | None => StProcessing progress (JInt 0)
          | Some (RMeta _) => StProcessing progress (JInt 0)
          | Some (RJson (JObj kv)) =>
              StProcessing progress
                (match dict_get "rows_processed" kv with Some v => v | None => JInt 0 end)
          | Some (RJson (JInt _)) =>
              StNotFound "Task not found: 'int' object has no attribute 'get'"
          end
      end
  end.

End TaskStatus.

(* ------------------------------------------------------------------ *)
(** ** Helpers of the extra facts *)

Section DedupSpecDefs.

Context {V : Type} `{Pandas V}.

(** Each row differs from all the rows before it and from [seen]. *)
Fixpoint fresh_after (seen : list (list V)) (l : list (list V)) : Prop :=
  match l with
  | [] => True
  | r :: l' => existsb (row_eqb r) seen = false /\ fresh_after (r :: seen) l'
  end.

End DedupSpecDefs.


(* ------------------------------------------------------------------ *)
(** ** Test data of the extra facts *)

(** Three text rows with one missing value in each column. *)
Definition demo_frame : frame cell :=
  {| fcolumns := ["name"; "city"];
     frows := [[Some " Ada "; None]; [None; Some " Paris"]; [Some "Bob"; Some "Rome"]] |}.

Definition drop_only_options : options :=
  {| handle_missing := Some "drop"; trim_whitespace := false; convert_types := false;
     standardize_columns := false; remove_duplicates := false |}.

Definition drop_options : options :=
  {| handle_missing := Some "drop"; trim_whitespace := true; convert_types := false;
     standardize_columns := false; remove_duplicates := false |}.


(** A file system with one upload whose name has no lower-case [.csv]. *)
Definition upper_fs (p : string) : option csv_file :=
  if String.eqb p "up/1_t_DATA.CSV" then Some names_file else None.

(** A decoder that accepts the token ["good"] for user 7. *)
Definition demo_decode (t : string) : decode_result Z :=
  if String.eqb t "good" then DecOk [("user_id", 7%Z)] else DecInvalid.

Definition empty_server : server := {| disk := []; rstore := [] |}.

Definition upload_of (name : string) (f : csv_file) : upload_req :=
  {| up_user := 1%Z; up_file := Some (name, {| st_file := f; st_size := 10 |}) |}.

(** A record after the first with more fields than the header. *)
Definition bad_file : csv_file :=
  {| header := ["a"; "b"]; records := [["1"; "2"]; ["3"; "4"; "5"]] |}.

(** The file system of the worker after the upload of [names.csv]. *)
Definition uploaded_fs (p : string) : option csv_file :=
  if String.eqb p "up/1_t_names.csv" then Some names_file else None.

Definition running_jobs : list rq_job :=
  [{| rq_id := "job1"; rq_args0 := "up/1_t_names.csv"; rq_state := JobRunning None |}].

(* ================================================================== *)
(** * Facts *)

(** ** Association lists as dicts *)
Module DictFacts.

Lemma dict_get_set {A} (k k' : string) (v : A) (d : list (string * A)) :
  dict_get k (dict_set k' v d) = if String.eqb k k' then Some v else dict_get k d.
Proof.
  induction d as [| [k1 v1] d IH]; simpl.
  - reflexivity.
  - destruct (String.eqb k' k1) eqn:E1; simpl.
    + apply String.eqb_eq in E1; subst k1.
      destruct (String.eqb k k'); reflexivity.
    + rewrite IH. destruct (String.eqb k k1) eqn:E2, (String.eqb k k') eqn:E3; auto.
      apply String.eqb_eq in E2, E3; subst. rewrite String.eqb_refl in E1. discriminate.
Qed.

Lemma in_dict_set {A} (kv : string * A) k v d :
  In kv (dict_set k v d) -> kv = (k, v) \/ In kv d.
Proof.
  induction d as [| [k1 v1] d IH]; simpl.
  - intros [H | []]; auto.
  - destruct (String.eqb k k1); simpl.
    + intros [H | H]; auto.
    + intros [H | H]; auto. destruct (IH H); auto.
Qed.

Lemma dict_get_in {A} k (v : A) d : dict_get k d = Some v -> In (k, v) d.
Proof.
  induction d as [| [k1 v1] d IH]; simpl; [discriminate |].
  destruct (String.eqb k k1) eqn:E.
  - apply String.eqb_eq in E. intros H; inversion H; subst; auto.
  - auto.
Qed.

Lemma dict_get_none_in {A} k (d : list (string * A)) :
  dict_get k d = None -> ~ In k (map fst d).
Proof.
  induction d as [| [k1 v1] d IH]; simpl; [auto |].
  destruct (String.eqb k k1) eqn:E; [discriminate |].
  intros H [H1 | H1].
  - subst. rewrite String.eqb_refl in E. discriminate.
  - exact (IH H H1).
Qed.

Lemma dict_set_new {A} k (v : A) d :
  dict_get k d = None -> dict_set k v d = d ++ [(k, v)].
Proof.
  induction d as [| [k1 v1] d IH]; simpl; [reflexivity |].
  destruct (String.eqb k k1) eqn:E; [discriminate |].
  destruct (String.eqb k1 k) eqn:E'.
  - apply String.eqb_eq in E'; subst. rewrite String.eqb_refl in E; discriminate.
  - intros H; rewrite (IH H); reflexivity.
Qed.

Lemma dict_get_app_none {A} k (d e : list (string * A)) :
  dict_get k d = None -> dict_get k (d ++ e) = dict_get k e.
Proof.
  induction d as [| [k1 v1] d IH]; simpl; [reflexivity |].
  destruct (String.eqb k k1); [discriminate | exact IH].
Qed.

Lemma dict_get_not_in {A} k (d : list (string * A)) :
  ~ In k (map fst d) -> dict_get k d = None.
Proof.
  induction d as [| [k1 v1] d IH]; simpl; [reflexivity |].
  intros H. destruct (String.eqb k k1) eqn:E.
  - apply String.eqb_eq in E. subst. exfalso; auto.
  - auto.
Qed.

(** Inserting distinct new keys in order appends them. *)
Lemma fold_dict_set_fresh {A B} (g : string -> B -> A) (kvs : list (string * B))
  (d : list (string * A)) :
  NoDup (map fst kvs) ->
  (forall k, In k (map fst kvs) -> dict_get k d = None) ->
  fold_left (fun d kv => dict_set (fst kv) (g (fst kv) (snd kv)) d) kvs d
  = d ++ map (fun kv => (fst kv, g (fst kv) (snd kv))) kvs.
Proof.
  revert d; induction kvs as [| [k b] kvs IH]; intros d Hnd Hfresh; simpl.
  - rewrite app_nil_r; reflexivity.
  - simpl in Hnd. inversion Hnd as [| ? ? Hk Hnd']; subst.
    rewrite dict_set_new by (apply Hfresh; simpl; auto).
    rewrite IH; [rewrite <- app_assoc; reflexivity | exact Hnd' |].
    intros k' Hk'. rewrite dict_get_app_none by (apply Hfresh; simpl; auto).
    simpl. destruct (String.eqb k' k) eqn:E; [| reflexivity].
    apply String.eqb_eq in E; subst. contradiction.
Qed.

(** Every inserted key is present afterwards. *)
Lemma fold_dict_set_present {A X} (key : X -> string) (val : X -> A) (xs : list X)
  (d : list (string * A)) k :
  (In k (map key xs) \/ dict_get k d <> None) ->
  dict_get k (fold_left (fun d x => dict_set (key x) (val x) d) xs d) <> None.
Proof.
  revert d; induction xs as [| x xs IH]; intros d H; simpl in *.
  - destruct H as [[] | H]; exact H.
  - apply IH. rewrite dict_get_set.
    destruct (String.eqb k (key x)) eqn:E.
    + right; discriminate.
    + destruct H as [[H | H] | H]; auto.
      rewrite H, String.eqb_refl in E. discriminate.
Qed.

(** Every entry afterwards comes from [d] or from one insertion. *)
Lemma fold_dict_set_entries {A X} (P : string * A -> Prop) (key : X -> string)
  (val : X -> A) (xs : list X) (d : list (string * A)) :
  (forall kv, In kv d -> P kv) ->
  (forall x, In x xs -> P (key x, val x)) ->
  forall kv, In kv (fold_left (fun d x => dict_set (key x) (val x) d) xs d) -> P kv.
Proof.
  revert d; induction xs as [| x0 xs IH]; intros d Hd Hxs; simpl.
  - exact Hd.
  - apply IH.
    + intros kv Hkv. destruct (in_dict_set _ _ _ _ Hkv) as [-> | Hin]; auto.
      apply Hxs; simpl; auto.
    + intros x Hx; apply Hxs; simpl; auto.
Qed.

End DictFacts.

(** ** The column labels are distinct *)

Module ColumnFacts.
Import DictFacts.

Lemma str_mem_in x l : str_mem x l = true <-> In x l.
Proof.
  induction l as [| y l IH]; simpl; [split; [discriminate | intros []] |].
  rewrite Bool.orb_true_iff, IH. split.
  - intros [E | E]; [left; symmetry; apply String.eqb_eq; exact E | right; exact E].
  - intros [E | E]; [left; apply String.eqb_eq; symmetry; exact E | right; exact E].
Qed.

Lemma app_inv_str (s t1 t2 : string) : (s ++ t1 = s ++ t2)%string -> t1 = t2.
Proof. induction s as [| c s IH]; simpl; [auto | intros H; injection H; exact IH]. Qed.

Lemma py_str_inj a b : py_str a = py_str b -> a = b.
Proof.
  unfold py_str. intros H.
  apply Unsigned.to_uint_inj.
  assert (Ha := NilEmpty.usu (Nat.to_uint a)). assert (Hb := NilEmpty.usu (Nat.to_uint b)).
  rewrite H in Ha. rewrite Ha in Hb. injection Hb. auto.
Qed.

Lemma suffix_inj old a b :
  (old ++ "." ++ py_str a)%string = (old ++ "." ++ py_str b)%string -> a = b.
Proof.
  intros H. apply app_inv_str in H. injection H. apply py_str_inj.
Qed.

Lemma dedup_while_zero fuel hdr old col counts :
  dedup_while fuel hdr old col 0 counts = (col, 0, counts).
Proof. destruct fuel; reflexivity. Qed.

(** The loop stops on a fresh name: the name it started from, when no
    count was recorded for it, or a name absent from the header. *)
Lemma dedup_while_exit fuel hdr old : forall col cur counts col' cnt',
  dedup_while fuel hdr old col cur counts = (col', 0, cnt') ->
  (col' = col /\ cur = 0) \/ ~ In col' hdr.
Proof.
  induction fuel as [| fuel IH]; intros col cur counts col' cnt' H; cbn [dedup_while] in H.
  - injection H as <- <- _. left; auto.
  - destruct (Nat.eqb_spec cur 0) as [-> | Hc].
    + injection H as <- _. left; auto.
    + apply IH in H as [[-> Hz] | Hn]; [| right; exact Hn].
      right. destruct (str_mem _ hdr) eqn:E; [discriminate |].
      intros Hin. apply str_mem_in in Hin. congruence.
Qed.

(** The loop only raises counts of names that already have one, and every
    count it writes is positive. *)
Lemma dedup_while_counts (K : string -> Prop) fuel hdr old : forall col cur counts col' cur' cnt',
  dedup_while fuel hdr old col cur counts = (col', cur', cnt') ->
  (cur <> 0 -> K old) ->
  (forall k n, dict_get k counts = Some n -> 1 <= n /\ K k) ->
  (forall k n, dict_get k cnt' = Some n -> 1 <= n /\ K k) /\
  (forall k, dict_get k counts <> None -> dict_get k cnt' <> None).
Proof.
  induction fuel as [| fuel IH]; intros col cur counts col' cur' cnt' H Hold Hc;
    cbn [dedup_while] in H.
  - injection H as _ _ <-. split; auto.
  - destruct (Nat.eqb_spec cur 0) as [-> | Hz].
    + injection H as _ _ <-. split; auto.
    + specialize (Hold Hz).
      apply IH in H as [H1 H2]; [| intros _; exact Hold |].
      * split; [exact H1 |]. intros k Hk. apply H2. rewrite dict_get_set.
        destruct (String.eqb k old); [discriminate | exact Hk].
      * intros k n Hk. rewrite dict_get_set in Hk.
        destruct (String.eqb_spec k old) as [-> | _].
        -- injection Hk as <-. split; [lia | exact Hold].
        -- exact (Hc k n Hk).
Qed.

(** While the loop runs, every name ["old.k"] it tries lies in the header. *)
Lemma dedup_while_tried fuel hdr old : forall col cur counts col' cur' cnt',
  (forall k n, dict_get k counts = Some n -> In k hdr) ->
  (cur <> 0 -> In old hdr) ->
  dedup_while fuel hdr old col cur counts = (col', cur', cnt') ->
  cur' <> 0 ->
  forall k, cur <= k < cur + fuel -> In (old ++ "." ++ py_str k)%string hdr.
Proof.
  induction fuel as [| fuel IH]; intros col cur counts col' cur' cnt' Hkeys Hold H Hc' k Hk;
    [lia |].
  cbn [dedup_while] in H.
  destruct (Nat.eqb_spec cur 0) as [-> | Hz]; [injection H as _ <- _; contradiction |].
  assert (Hkeys1 : forall k n, dict_get k (dict_set old (S cur) counts) = Some n -> In k hdr).
  { intros k' n Hk'. rewrite dict_get_set in Hk'.
    destruct (String.eqb_spec k' old) as [-> | _]; [exact (Hold Hz) | exact (Hkeys _ _ Hk')]. }
  destruct (str_mem (old ++ "." ++ py_str cur) hdr) eqn:Em.
  - apply str_mem_in in Em.
    destruct (Nat.eq_dec k cur) as [-> | Hne]; [exact Em |].
    exact (IH _ _ _ _ _ _ Hkeys1 (fun _ => Hold Hz) H Hc' k ltac:(lia)).
  - exfalso. unfold count_of in H.
    destruct (dict_get (old ++ "." ++ py_str cur) (dict_set old (S cur) counts)) eqn:Eg.
    + apply Hkeys1 in Eg. apply str_mem_in in Eg. congruence.
    + rewrite dedup_while_zero in H. injection H as _ <- _. contradiction.
Qed.

Lemma dedup_while_ends hdr old col cur counts col' cur' cnt' :
  (forall k n, dict_get k counts = Some n -> In k hdr) ->
  (cur <> 0 -> In old hdr) ->
  dedup_while (S (List.length hdr)) hdr old col cur counts = (col', cur', cnt') ->
  cur' = 0.
Proof.
  intros Hkeys Hold H. destruct (Nat.eq_dec cur' 0) as [E | Hc']; [exact E | exfalso].
  pose proof (dedup_while_tried _ _ _ _ _ _ _ _ _ Hkeys Hold H Hc') as Ht.
  assert (Hnd : NoDup (map (fun k => (old ++ "." ++ py_str k)%string) (seq cur (S (List.length hdr))))).
  { apply Finite.Injective_map_NoDup; [intros a b; apply suffix_inj | apply seq_NoDup]. }
  apply (NoDup_incl_length (l' := hdr)) in Hnd.
  - rewrite length_map, length_seq in Hnd. lia.
  - intros x Hx. apply in_map_iff in Hx as (k & <- & Hk). apply in_seq in Hk.
    apply Ht. lia.
Qed.

Lemma list_set_length {A} i (x : A) l : List.length (list_set i x l) = List.length l.
Proof. revert i; induction l as [| y l IH]; intros [| i]; simpl; auto. Qed.

Lemma nth_list_set_eq {A} i (x d : A) l : i < List.length l -> nth i (list_set i x l) d = x.
Proof.
  revert i; induction l as [| y l IH]; intros [| i] Hi; simpl in *; try lia; auto.
  apply IH; lia.
Qed.

Lemma nth_list_set_ne {A} i j (x d : A) l : j <> i -> nth j (list_set i x l) d = nth j l d.
Proof.
  revert i j; induction l as [| y l IH]; intros [| i] [| j] Hij; simpl; auto; try lia.
Qed.

(** The invariant of the renaming loop after the indices [P]. *)
Definition dedup_inv (N : nat) (P : list nat) (st : list string * list (string * nat)) : Prop :=
  let '(hdr, counts) := st in
  List.length hdr = N /\
  Forall (fun p => p < N) P /\
  NoDup (map (fun p => nth p hdr "") P) /\
  (forall k n, dict_get k counts = Some n -> 1 <= n /\ In k (map (fun p => nth p hdr "") P)) /\
  (forall p, In p P -> dict_get (nth p hdr "") counts <> None).

Lemma dedup_index_inv N P st i :
  dedup_inv N P st -> ~ In i P -> i < N -> dedup_inv N (P ++ [i]) (dedup_index st i).
Proof.
  destruct st as [hdr counts]. intros (Hlen & Hlt & Hnd & Hkeys & Hpres) Hi HiN.
  set (L := map (fun p => nth p hdr "") P) in *.
  assert (HL : forall k, In k L -> In k hdr).
  { intros k Hk. unfold L in Hk. apply in_map_iff in Hk as (p & <- & Hp).
    apply nth_In. rewrite Forall_forall in Hlt. specialize (Hlt p Hp). lia. }
  unfold dedup_index.
  set (col := nth i hdr "").
  destruct (dedup_while (S (List.length hdr)) hdr col col (count_of col counts) counts)
    as [[col' cur'] cnt'] eqn:Ew.
  assert (Hold : count_of col counts <> 0 -> In col L).
  { unfold count_of. destruct (dict_get col counts) as [n |] eqn:E; [| lia].
    intros _. exact (proj2 (Hkeys _ _ E)). }
  assert (Hz : cur' = 0).
  { refine (dedup_while_ends hdr col col _ counts col' cur' cnt' _ _ Ew).
    - intros k n Hk. exact (HL _ (proj2 (Hkeys _ _ Hk))).
    - intros Hc. exact (HL _ (Hold Hc)). }
  subst cur'.
  assert (Hfresh : ~ In col' L).
  { destruct (dedup_while_exit _ _ _ _ _ _ _ _ Ew) as [[-> Hc] | Hn].
    - intros Hin. unfold L in Hin. apply in_map_iff in Hin as (p & Ep & Hp).
      specialize (Hpres p Hp). rewrite Ep in Hpres. unfold count_of in Hc.
      destruct (dict_get col counts) as [n |] eqn:E; [| contradiction].
      subst n. apply Hkeys in E. lia.
    - intros Hin. exact (Hn (HL _ Hin)). }
  destruct (dedup_while_counts (fun k => In k L) _ _ _ _ _ _ _ _ _ Ew Hold Hkeys)
    as [Hk' Hp'].
  set (hdr' := list_set i col' hdr).
  assert (Hlab : map (fun p => nth p hdr' "") (P ++ [i]) = L ++ [col']).
  { rewrite map_app. cbn [map]. unfold hdr'. rewrite nth_list_set_eq by lia.
    f_equal. unfold L. apply map_ext_in. intros p Hp.
    apply nth_list_set_ne. intros ->. contradiction. }
  assert (Hnp : forall p, In p P -> nth p hdr' "" = nth p hdr "").
  { intros p Hp. apply nth_list_set_ne. intros ->. contradiction. }
  cbn. rewrite Hlab. fold hdr'. split; [unfold hdr'; rewrite list_set_length; exact Hlen |].
  split; [apply Forall_app; split; [exact Hlt | constructor; [exact HiN | constructor]] |].
  split.
  { apply NoDup_app; [exact Hnd | constructor; [intros [] | constructor] |].
    intros x Hx [<- | []]. contradiction. }
  split.
  - intros k n Hk. rewrite dict_get_set in Hk.
    destruct (String.eqb_spec k col') as [-> | _].
    + injection Hk as <-. split; [lia | apply in_or_app; right; left; reflexivity].
    + apply Hk' in Hk as [Hn HkL]. split; [exact Hn | apply in_or_app; left; exact HkL].
  - intros p Hp. apply in_app_or in Hp as [Hp | [<- | []]]; rewrite dict_get_set.
    + rewrite (Hnp p Hp). destruct (String.eqb _ col'); [discriminate |].
      apply Hp'. apply Hpres. exact Hp.
    + unfold hdr'. rewrite nth_list_set_eq by lia. rewrite String.eqb_refl. discriminate.
Qed.

Lemma dedup_fold_inv N O : forall P st,
  dedup_inv N P st -> NoDup (P ++ O) -> Forall (fun i => i < N) O ->
  dedup_inv N (P ++ O) (fold_left dedup_index O st).
Proof.
  induction O as [| i O IH]; intros P st Hinv Hnd Hlt; simpl; [rewrite app_nil_r; exact Hinv |].
  inversion Hlt as [| ? ? HiN Hlt']; subst.
  replace (P ++ i :: O) with ((P ++ [i]) ++ O) by (rewrite <- app_assoc; reflexivity).
  apply IH; [| rewrite <- app_assoc; exact Hnd | exact Hlt'].
  apply dedup_index_inv; [exact Hinv | | exact HiN].
  intros Hin. apply NoDup_remove_2 in Hnd. apply Hnd. apply in_or_app. left; exact Hin.
Qed.

Lemma dedup_fold_length O : forall st,
  List.length (fst (fold_left dedup_index O st)) = List.length (fst st).
Proof.
  induction O as [| i O IH]; intros [hdr counts]; cbn [fold_left]; [reflexivity |].
  rewrite IH. unfold dedup_index.
  destruct (dedup_while _ _ _ _ _ _) as [[c n] cnt]. cbn [fst]. apply list_set_length.
Qed.

Lemma filter_split_perm {A} (g : A -> bool) l :
  Permutation (filter (fun x => negb (g x)) l ++ filter g l) l.
Proof.
  induction l as [| x l IH]; simpl; [constructor |].
  destruct (g x); simpl.
  - rewrite <- Permutation_middle. constructor. exact IH.
  - constructor. exact IH.
Qed.

Lemma map_nth_seq_id (l : list string) :
  map (fun p => nth p l "") (seq 0 (List.length l)) = l.
Proof.
  induction l as [| x l IH]; [reflexivity |].
  cbn [List.length seq map]. rewrite <- seq_shift, map_map. cbn [nth].
  f_equal. exact IH.
Qed.

Lemma py_columns_length names : List.length (py_columns names) = List.length names.
Proof. unfold py_columns. rewrite dedup_fold_length. simpl. rewrite length_map, length_seq. reflexivity. Qed.

(** pandas' labels are pairwise distinct. *)
Lemma py_columns_nodup names : NoDup (py_columns names).
Proof.
  unfold py_columns.
  set (N := List.length names). set (idx := seq 0 N).
  set (g := fun i => String.eqb (nth i names "") "").
  set (O := filter (fun i => negb (g i)) idx ++ filter g idx).
  assert (Hperm : Permutation O idx) by apply filter_split_perm.
  set (h0 := map (fun i => unnamed_label i (nth i names "")) idx).
  assert (Hinit : dedup_inv N [] (h0, [])).
  { cbn. split; [unfold h0, idx; rewrite length_map, length_seq; reflexivity |].
    split; [constructor |]. split; [constructor |]. split; [intros k n Hk; discriminate |].
    intros p []. }
  assert (HndO : NoDup O) by (apply (Permutation_NoDup (Permutation_sym Hperm)), seq_NoDup).
  assert (HltO : Forall (fun i => i < N) O).
  { apply Forall_forall. intros x Hx. apply (Permutation_in _ Hperm) in Hx.
    unfold idx in Hx. apply in_seq in Hx. lia. }
  change (NoDup (fst (fold_left dedup_index O (h0, [])))).
  pose proof (dedup_fold_inv N O [] (h0, []) Hinit HndO HltO) as Hf.
  destruct (fold_left dedup_index O (h0, [])) as [hdr counts] eqn:E.
  cbn [fst]. destruct Hf as (Hlen & _ & Hnd & _).
  cbn [app] in Hnd.
  apply (Permutation_NoDup (Permutation_map (fun p => nth p hdr "") Hperm)) in Hnd.
  unfold idx in Hnd. rewrite <- Hlen in Hnd. rewrite map_nth_seq_id in Hnd. exact Hnd.
Qed.

End ColumnFacts.

(** ** The reader and the full scan *)
Module ScanFacts.

Lemma parse_strict_app n (a b : list (list string)) :
  parse_strict n (a ++ b) =
  match parse_strict n a with
  | inl e => inl e
  | inr x => match parse_strict n b with
             | inl e => inl e
             | inr y => inr (x ++ y)
             end
  end.
Proof.
  induction a as [| r a IH]; simpl.
  - destruct (parse_strict n b); reflexivity.
  - destruct (parse_record n r); [| reflexivity].
    rewrite IH. destruct (parse_strict n a); [reflexivity |].
    simpl. destruct (parse_strict n b); reflexivity.
Qed.

Lemma parse_strict_length n l rows :
  parse_strict n l = inr rows -> List.length rows = List.length l.
Proof.
  revert rows; induction l as [| r l IH]; simpl; intros rows H.
  - inversion H; reflexivity.
  - destruct (parse_record n r); [| discriminate].
    destruct (parse_strict n l) eqn:E; simpl in H; [discriminate |].
    inversion H; subst. simpl. f_equal. apply IH; reflexivity.
Qed.

Lemma parse_strict_firstn n k l rows :
  parse_strict n l = inr rows -> exists rows', parse_strict n (firstn k l) = inr rows'.
Proof.
  intros H. rewrite <- (firstn_skipn k l) in H.
  rewrite parse_strict_app in H.
  destruct (parse_strict n (firstn k l)); [discriminate | eauto].
Qed.

Lemma chunks_fuel_concat {A} fuel n (l : list A) :
  0 < n -> List.length l <= fuel -> List.concat (chunks_fuel fuel n l) = l.
Proof.
  revert l; induction fuel as [| fuel IH]; intros l Hn Hl; simpl.
  - destruct l; [reflexivity | simpl in Hl; lia].
  - destruct l as [| x l']; [reflexivity |].
    simpl List.concat. rewrite IH; [apply firstn_skipn | exact Hn |].
    rewrite length_skipn.
    change (List.length (x :: l')) with (S (List.length l')) in *. lia.
Qed.

Lemma chunks_of_concat {A} n (l : list A) : 0 < n -> List.concat (chunks_of n l) = l.
Proof. intros Hn. apply chunks_fuel_concat; [exact Hn | lia]. Qed.

Lemma reader_batches_concat {A} n (l : list A) :
  0 < n -> List.concat (reader_batches n l) = l.
Proof. intros Hn. destruct l; [reflexivity | apply chunks_of_concat, Hn]. Qed.

(** Scanning an empty batch leaves fresh accumulators as they are. *)
Lemma scan_chunk_empty_nil {A} i (cols : list A) :
  scan_chunk i [] (map (fun _ => empty_acc) cols) = map (fun _ => empty_acc) cols.
Proof.
  unfold scan_chunk. rewrite length_map. generalize 0.
  induction cols as [| c cols IH]; intros k; simpl; [reflexivity |].
  f_equal; [| apply IH].
  unfold scan_column, track_unique, collect_samples. simpl.
  destruct (Nat.ltb i 3); reflexivity.
Qed.

Lemma scan_chunk_length i chunk accs :
  List.length (scan_chunk i chunk accs) = List.length accs.
Proof.
  unfold scan_chunk. rewrite length_map, length_combine, length_seq. lia.
Qed.

(** A scan over batches that all parse succeeds and counts every row. *)
Lemma scan_chunks_ok ncols raw : forall i tot accs rows,
  parse_strict ncols (List.concat raw) = inr rows ->
  exists accs', scan_chunks ncols i raw tot accs = inr (tot + List.length rows, accs')
             /\ List.length accs' = List.length accs.
Proof.
  induction raw as [| c raw IH]; intros i tot accs rows H; simpl in *.
  - inversion H; subst. exists accs. cbn [List.length]. rewrite Nat.add_0_r. auto.
  - rewrite parse_strict_app in H.
    destruct (parse_strict ncols c) as [e | x] eqn:Ec; [discriminate |].
    destruct (parse_strict ncols (List.concat raw)) as [e | y] eqn:Er; [discriminate |].
    inversion H; subst. simpl.
    destruct (IH (S i) (tot + List.length x) (scan_chunk i x accs) y eq_refl)
      as [accs' [Hs Hl]].
    exists accs'. rewrite Hs, length_app, Nat.add_assoc.
    split; [reflexivity |]. rewrite Hl. apply scan_chunk_length.
Qed.

Lemma scan_chunks_length ncols raw : forall i tot accs t accs',
  scan_chunks ncols i raw tot accs = inr (t, accs') ->
  List.length accs' = List.length accs.
Proof.
  induction raw as [| c raw IH]; intros i tot accs t accs' H; simpl in H.
  - inversion H; reflexivity.
  - destruct (parse_strict ncols c); simpl in H; [discriminate |].
    rewrite (IH _ _ _ _ _ H). apply scan_chunk_length.
Qed.

Lemma read_csv_nrows_header f k p :
  read_csv_nrows f k = inr p -> fst p = py_columns (header f).
Proof.
  unfold read_csv_nrows, read_header. destruct (header f); simpl; [discriminate |].
  destruct (parse_strict _ _); simpl; [discriminate |]. intros H; inversion H; reflexivity.
Qed.

(** The report of a successful analysis, field by field. *)
Lemma analyze_inr cs f sz ss r :
  analyze_csv_quality_chunked_with cs f sz ss = inr r ->
  exists probe it tot accs,
    read_csv_nrows f 1000 = inr probe /\
    read_csv_chunks f cs = inr it /\
    scan_chunks (List.length (fst probe)) 0 (snd it) 0
                (map (fun _ => empty_acc) (fst probe)) = inr (tot, accs) /\
    r = {| total_rows := tot;
           total_columns := List.length (fst probe);
           total_cells := tot * List.length (fst probe);
           missing_cells := sum_nat (map acc_missing accs);
           missing_percentage :=
             percentage (sum_nat (map acc_missing accs)) (tot * List.length (fst probe));
           column_analysis :=
             build_column_analysis (probe_dtypes (fst probe) (snd probe)) tot
                                   (fst probe) accs;
           duplicate_rows := duplicate_estimate f ss tot;
           memory_usage := round2 (nat_Q sz / 1024 / 1024)%Q;
           is_large_file := Nat.ltb 50000 tot |}.
Proof.
  unfold analyze_csv_quality_chunked_with.
  destruct (read_csv_nrows f 1000) as [e | probe] eqn:E1; simpl; [discriminate |].
  destruct (read_csv_chunks f cs) as [e | it] eqn:E2; simpl; [discriminate |].
  destruct (scan_chunks _ _ _ _ _) as [e | [tot accs]] eqn:E3; simpl; [discriminate |].
  intros H; inversion H; subst. exists probe, it, tot, accs. auto.
Qed.

Lemma read_header_ok f : header f <> [] -> read_header f = inr (py_columns (header f)).
Proof. unfold read_header. destruct (header f); [contradiction | reflexivity]. Qed.

Lemma read_csv_nrows_ok f k rows :
  header f <> [] ->
  parse_strict (List.length (header f)) (records f) = inr rows ->
  exists p, read_csv_nrows f k = inr (py_columns (header f), p).
Proof.
  intros Hh Hr. destruct (parse_strict_firstn _ k _ _ Hr) as [p Ep].
  exists p. unfold read_csv_nrows. rewrite (read_header_ok f Hh). cbn [bind].
  rewrite ColumnFacts.py_columns_length, Ep. reflexivity.
Qed.

Lemma read_csv_chunks_ok f n :
  header f <> [] -> 0 < n ->
  read_csv_chunks f n = inr (py_columns (header f), reader_batches n (records f)).
Proof.
  intros Hh Hn. unfold read_csv_chunks. rewrite (read_header_ok f Hh). cbn [bind].
  destruct n; [lia | reflexivity].
Qed.

Lemma read_csv_chunks_inr f n it :
  read_csv_chunks f n = inr it ->
  it = (py_columns (header f), reader_batches n (records f)) /\ 0 < n.
Proof.
  unfold read_csv_chunks, read_header.
  destruct (header f) eqn:Eh; simpl; [discriminate |].
  destruct n; simpl; [discriminate |]. intros H; inversion H; split; [reflexivity | lia].
Qed.

End ScanFacts.

(** ** C2: exact row count *)

(** C2. For every parseable file (a header and no record with more fields
    than the header) and every batch size [cs > 0], the analysis succeeds and
    its [total_rows] is the number of data records of the file; the value
    therefore does not depend on the batch size (1, 10000 or 100000 alike). *)
Theorem total_rows_exact (cs : nat) (f : csv_file) (sz : nat) (ss : Z) :
  0 < cs -> parseable f = true ->
  exists r, analyze_csv_quality_chunked_with cs f sz ss = inr r /\
            total_rows r = List.length (records f).
Proof.
  intros Hcs Hp. unfold parseable in Hp.
  apply andb_prop in Hp as [Hh Hr].
  assert (Hh' : header f <> []) by (destruct (header f); [discriminate | congruence]).
  destruct (parse_strict _ (records f)) as [e | rows] eqn:Er; [discriminate |].
  destruct (ScanFacts.read_csv_nrows_ok f 1000 rows Hh' Er) as [p Ep].
  assert (Hc : List.concat (reader_batches cs (records f)) = records f)
    by (apply ScanFacts.reader_batches_concat; exact Hcs).
  destruct (ScanFacts.scan_chunks_ok (List.length (py_columns (header f)))
              (reader_batches cs (records f))
              0 0 (map (fun _ => empty_acc) (py_columns (header f))) rows)
    as [accs [Hs _]]; [rewrite Hc, ColumnFacts.py_columns_length; exact Er |].
  unfold analyze_csv_quality_chunked_with.
  rewrite Ep. cbn [bind fst snd].
  rewrite (ScanFacts.read_csv_chunks_ok f cs Hh' Hcs). cbn [bind fst snd].
  rewrite Hs. cbn [bind fst snd ret].
  eexists; split; [reflexivity |]. cbn [total_rows].
  rewrite (ScanFacts.parse_strict_length _ _ _ Er). reflexivity.
Qed.

(** ** The column analysis *)
Module ReportFacts.
Import DictFacts.

Lemma fold_left_ext_in {A B} (f g : A -> B -> A) (l : list B) (a : A) :
  (forall x b, In b l -> f x b = g x b) -> fold_left f l a = fold_left g l a.
Proof.
  revert a; induction l as [| b l IH]; intros a H; simpl; [reflexivity |].
  rewrite H by (left; reflexivity). apply IH. intros; apply H; right; assumption.
Qed.

Lemma map_fst_combine {A B} (l : list A) (l' : list B) :
  List.length l = List.length l' -> map fst (combine l l') = l.
Proof.
  revert l'; induction l as [| x l IH]; intros [| y l'] H; simpl in *; try lia; auto.
  f_equal; apply IH; lia.
Qed.

Lemma map_snd_combine {A B} (l : list A) (l' : list B) :
  List.length l = List.length l' -> map snd (combine l l') = l'.
Proof.
  revert l'; induction l as [| x l IH]; intros [| y l'] H; simpl in *; try lia; auto.
  f_equal; apply IH; lia.
Qed.

(** The profile a column receives. *)
Definition profile_or_fallback dtypes t col a : col_profile :=
  match column_profile dtypes t col a with
  | inr p => p
  | inl _ => fallback_profile
  end.

Lemma build_column_analysis_fold dtypes t cols accs :
  build_column_analysis dtypes t cols accs =
  fold_left (fun d kv => dict_set (fst kv) (profile_or_fallback dtypes t (fst kv) (snd kv)) d)
            (combine cols accs) [].
Proof.
  unfold build_column_analysis. apply fold_left_ext_in.
  intros d [c a] _. reflexivity.
Qed.

Lemma build_column_analysis_nodup dtypes t cols accs :
  NoDup cols -> List.length cols = List.length accs ->
  build_column_analysis dtypes t cols accs =
  map (fun kv => (fst kv, profile_or_fallback dtypes t (fst kv) (snd kv))) (combine cols accs).
Proof.
  intros Hnd Hl. rewrite build_column_analysis_fold.
  rewrite fold_dict_set_fresh; [reflexivity | rewrite map_fst_combine; auto |].
  intros; reflexivity.
Qed.

Lemma profile_missing dtypes t col a :
  missing_count (profile_or_fallback dtypes t col a) = acc_missing a.
Proof. reflexivity. Qed.

Lemma profile_dtype dtypes t col a :
  dtype (profile_or_fallback dtypes t col a) =
  match dict_get col dtypes with Some d => d | None => "object" end.
Proof. reflexivity. Qed.

Lemma sum_missing_by_name (G : string -> col_acc -> col_profile) cols accs :
  NoDup cols -> List.length cols = List.length accs ->
  sum_nat (map (fun c => match dict_get c (map (fun kv => (fst kv, G (fst kv) (snd kv)))
                                                (combine cols accs)) with
                         | Some p => missing_count p
                         | None => 0
                         end) cols)
  = sum_nat (map (fun kv => missing_count (G (fst kv) (snd kv))) (combine cols accs)).
Proof.
  revert accs; induction cols as [| c cols IH]; intros [| a accs] Hnd Hl;
    simpl in *; try lia; try reflexivity.
  inversion Hnd as [| ? ? Hc Hnd']; subst.
  rewrite String.eqb_refl. f_equal.
  rewrite <- IH by (auto; lia).
  f_equal. apply map_ext_in. intros c' Hc'.
  destruct (String.eqb c' c) eqn:E; [| reflexivity].
  apply String.eqb_eq in E; subst; contradiction.
Qed.

End ReportFacts.

(** ** C3: per-column missing counts add up *)

(** C3. Whenever the analysis succeeds, the sum over the columns [c] of the
    data frame (the header labels as pandas makes them distinct, see
    [py_columns]) of [column_analysis[c].missing_count] equals
    [missing_cells]. *)
Theorem missing_cells_sum (cs : nat) (f : csv_file) (sz : nat) (ss : Z)
  (r : quality_report) :
  analyze_csv_quality_chunked_with cs f sz ss = inr r ->
  sum_nat (map (fun c => match dict_get c (column_analysis r) with
                         | Some p => missing_count p
                         | None => 0
                         end) (py_columns (header f)))
  = missing_cells r.
Proof.
  intros Ha.
  destruct (ScanFacts.analyze_inr _ _ _ _ _ Ha) as (probe & it & tot & accs & Hp & _ & Hs & ->).
  pose proof (ScanFacts.read_csv_nrows_header _ _ _ Hp) as Hcols.
  pose proof (ScanFacts.scan_chunks_length _ _ _ _ _ _ _ Hs) as Hlen.
  rewrite length_map in Hlen.
  assert (Hnd : NoDup (fst probe)) by (rewrite Hcols; apply ColumnFacts.py_columns_nodup).
  cbn [column_analysis missing_cells]. rewrite <- Hcols in *.
  rewrite ReportFacts.build_column_analysis_nodup by (auto; lia).
  rewrite ReportFacts.sum_missing_by_name by (auto; lia).
  erewrite map_ext by (intros; apply ReportFacts.profile_missing).
  rewrite <- (ReportFacts.map_snd_combine (fst probe) accs) at 2 by lia.
  rewrite map_map. reflexivity.
Qed.

Lemma probe_dtypes_str cols first_chunk col d :
  dict_get col (probe_dtypes cols first_chunk) = Some d -> d = "str".
Proof.
  intros H. apply DictFacts.dict_get_in in H.
  unfold probe_dtypes in H.
  apply (DictFacts.fold_dict_set_entries (fun kv => snd kv = "str") snd
           (fun jc => text_series_dtype (col_values (fst jc) first_chunk))
           _ [] ltac:(intros ? [])) in H; [exact H |].
  intros; reflexivity.
Qed.

Lemma probe_dtypes_present cols first_chunk col :
  In col cols -> dict_get col (probe_dtypes cols first_chunk) <> None.
Proof.
  intros H. unfold probe_dtypes. apply DictFacts.fold_dict_set_present. left.
  rewrite ReportFacts.map_snd_combine by (rewrite length_seq; reflexivity). exact H.
Qed.

(** ** C10: the dtype label *)

(** C10 (as amended).  Whenever the analysis succeeds, every column of the
    report has the same dtype label, the one of a column read with
    [dtype=str]: ["str"] under pandas 3 (it was ["object"] under pandas 2).
    The label never tells the columns' types apart. *)
Theorem dtype_always_str (cs : nat) (f : csv_file) (sz : nat) (ss : Z)
  (r : quality_report) :
  analyze_csv_quality_chunked_with cs f sz ss = inr r ->
  forall c p, In (c, p) (column_analysis r) -> dtype p = "str".
Proof.
  intros Ha c p Hin.
  destruct (ScanFacts.analyze_inr _ _ _ _ _ Ha)
    as (probe & it & tot & accs & _ & _ & Hs & ->).
  pose proof (ScanFacts.scan_chunks_length _ _ _ _ _ _ _ Hs) as Hlen.
  rewrite length_map in Hlen.
  cbn [column_analysis] in Hin. rewrite ReportFacts.build_column_analysis_fold in Hin.
  apply (DictFacts.fold_dict_set_entries (fun kv => dtype (snd kv) = "str") fst
           (fun kv => ReportFacts.profile_or_fallback (probe_dtypes (fst probe) (snd probe))
                        tot (fst kv) (snd kv)) _ [] ltac:(intros ? [])) in Hin;
    [exact Hin |].
  intros x Hx. cbn [snd]. rewrite ReportFacts.profile_dtype.
  destruct (dict_get _ _) eqn:E.
  - apply probe_dtypes_str in E; exact E.
  - exfalso. destruct x as [x a]. apply in_combine_l in Hx.
    exact (probe_dtypes_present _ _ _ Hx E).
Qed.

(** C10, counterexample: a column of the report of [small_file] has the
    dtype label ["str"], not ["object"]. *)
Lemma dtype_small_file_not_object :
  match analyze_csv_quality_chunked small_file 100 10000 with
  | inr r => map (fun kv => (fst kv, dtype (snd kv))) (column_analysis r)
  | inl _ => []
  end = [("a", "str"); ("b", "str")].
Proof. vm_compute. reflexivity. Qed.

(** ** C8: header-only input *)

(** The sample read of lines 136-137 always raises (see [read_csv_python]),
    so the estimate is always 0. *)
Lemma duplicate_estimate_zero f ss t : duplicate_estimate f ss t = 0.
Proof. reflexivity. Qed.

Lemma duplicate_estimate_zero_rows f ss : duplicate_estimate f ss 0 = 0.
Proof. apply duplicate_estimate_zero. Qed.

(** C8. For a file with a header and no data records the analysis succeeds;
    every header column is listed in the column analysis, and every count
    and percentage of the report and of its columns is zero: [total_rows],
    [total_cells], [missing_cells], [missing_percentage], [duplicate_rows],
    and for each column [missing_count], [missing_percentage],
    [unique_values] (the count 0) and an empty sample list. *)
Theorem empty_input_report (f : csv_file) (sz : nat) (ss : Z) :
  header f <> [] -> records f = [] ->
  exists r, analyze_csv_quality_chunked f sz ss = inr r /\
    total_rows r = 0 /\ total_cells r = 0 /\ missing_cells r = 0 /\
    missing_percentage r = 0%Q /\ duplicate_rows r = 0 /\
    (forall c, In c (py_columns (header f)) -> dict_get c (column_analysis r) <> None) /\
    (forall c p, In (c, p) (column_analysis r) ->
       missing_count p = 0 /\ col_missing_percentage p = 0%Q /\
       unique_values p = UCount 0 /\ sample_values p = []).
Proof.
  intros Hh Hr.
  assert (Hp : parse_strict (List.length (header f)) (records f) = inr [])
    by (rewrite Hr; reflexivity).
  destruct (ScanFacts.read_csv_nrows_ok f 1000 [] Hh Hp) as [p Ep].
  unfold analyze_csv_quality_chunked, analyze_csv_quality_chunked_with.
  rewrite Ep. cbn [bind fst snd].
  rewrite (ScanFacts.read_csv_chunks_ok f CHUNK_SIZE Hh) by (apply Nat.ltb_lt; vm_compute; reflexivity).
  cbn [bind fst snd]. rewrite Hr.
  cbn [scan_chunks reader_batches parse_strict List.length ret bind fst snd].
  rewrite ScanFacts.scan_chunk_empty_nil.
  cbn [scan_chunks ret].
  rewrite duplicate_estimate_zero_rows.
  eexists; split; [reflexivity |].
  cbn [total_rows total_cells missing_cells missing_percentage duplicate_rows column_analysis].
  assert (Hz : sum_nat (map acc_missing (map (fun _ => empty_acc) (py_columns (header f)))) = 0).
  { clear. induction (py_columns (header f)); simpl; auto. }
  rewrite Hz.
  refine (conj eq_refl (conj eq_refl (conj eq_refl (conj eq_refl (conj eq_refl (conj _ _)))))).
  - intros c Hc. rewrite ReportFacts.build_column_analysis_fold.
    apply DictFacts.fold_dict_set_present. left.
    rewrite ReportFacts.map_fst_combine; [exact Hc | rewrite length_map; reflexivity].
  - intros c q Hin. rewrite ReportFacts.build_column_analysis_fold in Hin.
    apply (DictFacts.fold_dict_set_entries
             (fun kv => missing_count (snd kv) = 0 /\ col_missing_percentage (snd kv) = 0%Q /\
                        unique_values (snd kv) = UCount 0 /\ sample_values (snd kv) = [])
             fst _ _ [] ltac:(intros ? [])) in Hin; [exact Hin |].
    intros [c1 a] Hx. apply in_combine_r, in_map_iff in Hx as (? & <- & _).
    repeat split; reflexivity.
Qed.

(** ** C7: the duplicate estimate *)

Lemma duplicated_aux_sum seen rows :
  bool_sum (duplicated_aux seen rows) <= List.length rows.
Proof.
  unfold bool_sum.
  revert seen; induction rows as [| r rows IH]; intros seen; simpl; [lia |].
  destruct (existsb _ _); simpl; specialize (IH (r :: seen)); lia.
Qed.

(** The first row of a sample is never a duplicate. *)
Lemma duplicated_sum_bound rows :
  bool_sum (duplicated rows) <= List.length rows - 1.
Proof.
  destruct rows as [| r rows]; [reflexivity |].
  unfold duplicated. pose proof (duplicated_aux_sum [r] rows).
  unfold bool_sum in *. simpl. lia.
Qed.

Lemma read_csv_sample_length f k cols s :
  read_csv_sample f k = inr (cols, s) -> List.length s <= Z.to_nat k.
Proof.
  unfold read_csv_sample. destruct (read_header f); simpl; [discriminate |].
  destruct (k <? 0)%Z; [discriminate |].
  intros H; inversion H; subst. apply firstn_le_length.
Qed.

Lemma extrapolation_bound d len t :
  d <= len - 1 -> d * t / Nat.max len 1 <= t.
Proof.
  intros Hd. apply Nat.Div0.div_le_upper_bound.
  apply Nat.mul_le_mono_r. lia.
Qed.

(** The estimate the specification describes stays within [0, total_rows]. *)
Lemma spec_duplicate_estimate_bounds f ss t :
  spec_duplicate_estimate f ss t <= t /\
  match read_csv_sample f (Z.min ss (Z.of_nat t)) with
  | inl _ => spec_duplicate_estimate f ss t = 0
  | inr (_, s) =>
      List.length s <= Z.to_nat (Z.min ss (Z.of_nat t)) /\
      spec_duplicate_estimate f ss t =
        bool_sum (duplicated s) * t / Nat.max (List.length s) 1
  end.
Proof.
  unfold spec_duplicate_estimate.
  destruct (read_csv_sample f (Z.min ss (Z.of_nat t))) as [e | [cols s]] eqn:E.
  - split; [lia | reflexivity].
  - split; [apply extrapolation_bound, duplicated_sum_bound |].
    split; [exact (read_csv_sample_length _ _ _ _ E) | reflexivity].
Qed.

(** Every successful analysis reports [duplicate_rows = 0]. *)
Lemma analyze_duplicate_rows_zero cs f sz ss r :
  analyze_csv_quality_chunked_with cs f sz ss = inr r -> duplicate_rows r = 0.
Proof.
  intros Ha.
  destruct (ScanFacts.analyze_inr _ _ _ _ _ Ha) as (probe & it & tot & accs & _ & _ & _ & ->).
  apply duplicate_estimate_zero.
Qed.

(** C7 (code bug).  The sample read of the estimate passes
    [low_memory=False] with [engine="python"], which [read_csv] refuses with
    a [ValueError]; the bare [except] turns every estimate into 0.  The file
    [dup_file] (5 rows, the third a repeat of the first) is reported with
    [duplicate_rows = 0], where the specified estimate (1 duplicate in a
    sample of 5 rows, times 5 / 5) is 1. *)
Theorem duplicate_rows_always_zero :
  match analyze dup_file 40 with
  | inr r => (total_rows r, duplicate_rows r,
              spec_duplicate_estimate dup_file 10000 (total_rows r))
  | inl _ => (0, 0, 0)
  end = (5, 0, 1).
Proof. vm_compute. reflexivity. Qed.

(** ** C1: the distinct-value tracker *)

Lemma fold_append_new_length (l tr : list string) :
  List.length (fold_left (fun tr v => if str_mem (safe_convert_value v) tr then tr
                                      else tr ++ [safe_convert_value v]) l tr)
  <= List.length tr + List.length l.
Proof.
  revert tr; induction l as [| v l IH]; intros tr; simpl; [lia |].
  destruct (str_mem _ _).
  - specialize (IH tr); lia.
  - specialize (IH (tr ++ [safe_convert_value v])). rewrite length_app in IH. simpl in IH. lia.
Qed.

Lemma track_unique_length i vals tr :
  List.length (track_unique i vals tr) <=
  List.length tr + (if Nat.ltb i 3 then 100 else 0).
Proof.
  unfold track_unique.
  destruct (Nat.ltb i 3) eqn:Ei; cbn [andb]; [| lia].
  destruct (Nat.ltb (List.length tr) 1000); [| lia].
  etransitivity; [apply fold_append_new_length |].
  pose proof (firstn_le_length 100 (unique (dropna vals))). lia.
Qed.

(** At batch [i] every tracker holds at most [100 * min(i, 3)] values. *)
Lemma scan_chunks_uniques ncols raw : forall i tot accs t accs',
  Forall (fun a => List.length (acc_uniques a) <= 100 * Nat.min i 3) accs ->
  scan_chunks ncols i raw tot accs = inr (t, accs') ->
  Forall (fun a => List.length (acc_uniques a) <= 300) accs'.
Proof.
  induction raw as [| c raw IH]; intros i tot accs t accs' Hinv H; simpl in H.
  - inversion H; subst. eapply Forall_impl; [| exact Hinv]. intros a Ha; simpl in Ha; lia.
  - destruct (parse_strict ncols c) as [e | chunk]; simpl in H; [discriminate |].
    refine (IH _ _ _ _ _ _ H).
    apply Forall_forall. intros a' Ha'.
    unfold scan_chunk in Ha'. apply in_map_iff in Ha' as ([j a] & <- & Hja).
    apply in_combine_r in Hja. rewrite Forall_forall in Hinv. specialize (Hinv a Hja).
    cbn [fst snd scan_column acc_uniques].
    pose proof (track_unique_length i (col_values j chunk) (acc_uniques a)).
    destruct (Nat.ltb i 3) eqn:Ei.
    + apply Nat.ltb_lt in Ei. lia.
    + apply Nat.ltb_ge in Ei. lia.
Qed.

(** The sentinel ["1000+"] is never reported: a tracker never passes 300. *)
Lemma unique_values_never_capped (cs : nat) (f : csv_file) (sz : nat) (ss : Z)
  (r : quality_report) :
  analyze_csv_quality_chunked_with cs f sz ss = inr r ->
  forall c p, In (c, p) (column_analysis r) -> unique_values p <> UCapped.
Proof.
  intros Ha c p Hin.
  destruct (ScanFacts.analyze_inr _ _ _ _ _ Ha) as (probe & it & tot & accs & _ & _ & Hs & ->).
  assert (Hu : Forall (fun a => List.length (acc_uniques a) <= 300) accs).
  { eapply scan_chunks_uniques; [| exact Hs].
    apply Forall_forall. intros a Ha'. apply in_map_iff in Ha' as (? & <- & _). simpl; lia. }
  rewrite Forall_forall in Hu.
  cbn [column_analysis] in Hin. rewrite ReportFacts.build_column_analysis_fold in Hin.
  apply (DictFacts.fold_dict_set_entries (fun kv => unique_values (snd kv) <> UCapped) fst
           (fun kv => ReportFacts.profile_or_fallback (probe_dtypes (fst probe) (snd probe))
                        tot (fst kv) (snd kv)) _ [] ltac:(intros ? [])) in Hin;
    [exact Hin |].
  intros [c1 a] Hx. apply in_combine_r in Hx. specialize (Hu a Hx).
  cbn [snd fst]. unfold ReportFacts.profile_or_fallback, column_profile, ret.
  cbn [unique_values]. destruct (Nat.ltb (List.length (acc_uniques a)) 1000) eqn:E.
  - discriminate.
  - apply Nat.ltb_ge in E. lia.
Qed.

(** C1 (code bug). A single column with 2000 distinct values ["v0"] ...
    ["v1999"] (one batch of 2000 rows) is reported with
    [unique_values = 100], an exact-looking count, instead of ["1000+"]. *)
Theorem distinct_2000_reports_100 :
  match analyze distinct2000 10893 with
  | inr r => option_map unique_values (dict_get "id" (column_analysis r))
  | inl _ => None
  end = Some (UCount 100).
Proof. vm_compute. reflexivity. Qed.

(** ** The transform *)
Section TransformFacts.

Context {V : Type} `{Pandas V}.

Lemma mbind_inr {A B} (m : M V A) (k : A -> M V B) (w w' : world V) (b : B) :
  mbind m k w = (inr b, w') ->
  exists a w1, m w = (inr a, w1) /\ k a w1 = (inr b, w').
Proof.
  unfold mbind. destruct (m w) as [[e | a] w1]; [discriminate |]. eauto.
Qed.

Lemma mbind_lift_inr {A B} (a : A) (k : A -> M V B) (w : world V) :
  mbind (lift (inr a)) k w = k a w.
Proof. reflexivity. Qed.

(** A run of the [try] body that returns, returns a success. *)
Lemma preprocess_body_success cs fs path o (w w' : world V) r :
  preprocess_body cs fs path o w = (inr r, w') -> status r = "success".
Proof.
  unfold preprocess_body. intros Hb.
  apply mbind_inr in Hb as (f & w1 & _ & Hb).
  apply mbind_inr in Hb as (first & w2 & _ & Hb).
  destruct (remove_duplicates o).
  - apply mbind_inr in Hb as (rows & w3 & _ & Hb).
    apply mbind_inr in Hb as (u & w4 & _ & Hb).
    inversion Hb; reflexivity.
  - apply mbind_inr in Hb as (it & w3 & _ & Hb).
    apply mbind_inr in Hb as (total & w4 & _ & Hb).
    inversion Hb; reflexivity.
Qed.

End TransformFacts.

(** ** C4: no exception escapes the transform *)

(** C4. For every file system, input path, configuration and batch size, a
    transform run returns a result and never an exception: when the [try]
    body raises with message [e] the result is the error result
    [{status: 'error', error: e}], and otherwise it is the body's own
    result, whose status is ['success']. *)
Theorem transform_never_raises {V : Type} `{Pandas V} (cs : nat)
  (fs : string -> option csv_file) (path : string) (o : options) (w : world V) :
  exists res, fst (preprocess_csv_task_chunked_with cs fs path o w) = inr res /\
    match fst (preprocess_body cs fs path o w) with
    | inl e => res = error_result e /\ status res = "error" /\ error res = Some e
    | inr r => res = r /\ status r = "success"
    end.
Proof.
  unfold preprocess_csv_task_chunked_with, mcatch.
  destruct (preprocess_body cs fs path o w) as [[e | r] w'] eqn:E; cbn [fst].
  - exists (error_result e). split; [reflexivity |]. auto.
  - exists r. split; [reflexivity |]. split; [reflexivity |].
    exact (preprocess_body_success _ _ _ _ _ _ _ E).
Qed.

(** ** C5: whole-dataset mode *)
Section DedupFacts.

Context {V : Type} `{Pandas V}.

Lemma fold_keeps_columns (g : frame V -> nat -> frame V) (l : list nat) (df : frame V) :
  (forall d j, fcolumns (g d j) = fcolumns d) ->
  fcolumns (fold_left g l df) = fcolumns df.
Proof.
  intros Hg. revert df; induction l as [| j l IH]; intros df; simpl; [reflexivity |].
  rewrite IH. apply Hg.
Qed.

(** The per-cell options never rename columns. *)
Lemma apply_preprocessing_columns (df : frame V) (o : options) :
  fcolumns (apply_preprocessing_options df o) = fcolumns df.
Proof.
  assert (Hfill : forall stat d, fcolumns (fill_numeric stat d) = fcolumns d).
  { intros stat d. unfold fill_numeric. apply fold_keeps_columns.
    intros d' j. destruct (is_number_col _); reflexivity. }
  assert (Hmode : forall d, fcolumns (fill_mode d) = fcolumns d).
  { intros d. unfold fill_mode. apply fold_keeps_columns.
    intros d' j. destruct (existsb _ _); [destruct (series_mode _) |]; reflexivity. }
  assert (Htrim : forall d, fcolumns (trim_columns d) = fcolumns d).
  { intros d. unfold trim_columns. apply fold_keeps_columns.
    intros d' j. destruct (is_object_col _); reflexivity. }
  assert (Hconv : forall d, fcolumns (convert_columns d) = fcolumns d).
  { intros d. unfold convert_columns. apply fold_keeps_columns.
    intros d' j. destruct (forallb _ _); reflexivity. }
  unfold apply_preprocessing_options.
  destruct (convert_types o); rewrite ?Hconv;
  destruct (trim_whitespace o); rewrite ?Htrim;
  destruct (handle_missing o) as [s |]; try reflexivity;
  repeat match goal with
         | |- context [match ?s with EmptyString => _ | String _ _ => _ end] =>
             destruct s as [| ? s]; try reflexivity
         | |- context [match ?a with Ascii _ _ _ _ _ _ _ _ => _ end] =>
             destruct a as [[] [] [] [] [] [] [] []]; try reflexivity
         end;
  first [apply Hfill | apply Hmode | reflexivity].
Qed.

Lemma typed_frame_rows_length cols (rows : list (list cell)) :
  List.length (frows (typed_frame (V:=V) cols rows)) = List.length rows.
Proof. unfold typed_frame. cbn [frows]. apply length_map. Qed.

End DedupFacts.

(** C5. With [remove_duplicates] set, for a file whose records all parse,
    the run loads every record (under the column labels of [py_columns]),
    drops the rows equal to an earlier row on all columns (keeping the
    first), and returns a success whose
    [rows_processed] is the number of rows left after the drop and whose
    [rows_removed] is the number of records minus that number; the output
    file holds, under the header, the deduplicated rows after the other
    per-cell options. *)
Theorem dedup_counts {V : Type} `{Pandas V} (cs : nat)
  (fs : string -> option csv_file) (path : string) (o : options) (w : world V)
  (f : csv_file) (rows : list (list cell)) :
  remove_duplicates o = true -> fs path = Some f -> header f <> [] ->
  parse_strict (List.length (header f)) (records f) = inr rows ->
  exists res,
    fst (preprocess_csv_task_chunked_with cs fs path o w) = inr res /\
    status res = "success" /\
    rows_processed res =
      Some (List.length (frows (drop_duplicates (typed_frame (py_columns (header f)) rows)))) /\
    rows_removed res =
      Some (List.length (records f)
            - List.length (frows (drop_duplicates (typed_frame (py_columns (header f)) rows)))) /\
    dict_get (str_replace ".csv" "_processed.csv" path)
             (outputs (snd (preprocess_csv_task_chunked_with cs fs path o w))) =
      Some {| out_header := py_columns (header f);
              out_rows := frows (apply_preprocessing_options
                                   (drop_duplicates (typed_frame (py_columns (header f)) rows)) o) |}.
Proof.
  intros Hrd Hfs Hh Hr.
  destruct (ScanFacts.read_csv_nrows_ok f 100 rows Hh Hr) as [p Ep].
  unfold preprocess_csv_task_chunked_with, mcatch, preprocess_body,
    mbind, lift, open_csv, to_csv_write, mret.
  rewrite Hfs. cbn [ret]. rewrite Ep. cbn [fst]. rewrite Hrd, ColumnFacts.py_columns_length, Hr.
  eexists. split; [reflexivity |].
  cbn [status rows_processed rows_removed fst snd outputs].
  rewrite DictFacts.dict_get_set, String.eqb_refl.
  rewrite apply_preprocessing_columns. cbn [drop_duplicates fcolumns typed_frame].
  rewrite typed_frame_rows_length, <- (ScanFacts.parse_strict_length _ _ _ Hr).
  auto.
Qed.

(** ** C9: progress writes of the streaming mode *)
Section StreamFacts.

Context {V : Type} `{Pandas V}.




End StreamFacts.


Example analyze_small :
  match analyze small_file 15 with
  | inr r => (total_rows r, missing_cells r,
              option_map missing_count (dict_get "b" (column_analysis r)))
  | inl _ => (0, 0, None)
  end = (3, 1, Some 1).
Proof. vm_compute. reflexivity. Qed.

(** C6. With [standardize_columns] set, the renamed column names reach the
    output only on the streaming path: when [remove_duplicates] is also set,
    the header ["First Name,Last Name"] is written unchanged, while the
    streaming run of the same file writes ["first_name,last_name"]. *)
Theorem dedup_path_keeps_raw_header :
  output_header_line
    (snd (preprocess_csv_task_chunked names_fs "up/names.csv"
            (rename_options true) empty_world))
    "up/names_processed.csv" = Some "First Name,Last Name" /\
  output_header_line
    (snd (preprocess_csv_task_chunked names_fs "up/names.csv"
            (rename_options false) empty_world))
    "up/names_processed.csv" = Some "first_name,last_name".
Proof. split; vm_compute; reflexivity. Qed.

(** ** Witnesses *)

Lemma total_rows_exact_witness :
  (0 < 1 /\ parseable small_file = true) /\
  exists r, analyze_csv_quality_chunked_with 1 small_file 15 10000 = inr r /\
            total_rows r = List.length (records small_file).
Proof.
  split; [split; [lia | vm_compute; reflexivity] |].
  apply (total_rows_exact 1 small_file 15 10000); [lia | vm_compute; reflexivity].
Defined.

Lemma missing_cells_sum_witness :
  match analyze_csv_quality_chunked_with 1 dup_header_file 20 10000 with
  | inr r =>
      sum_nat (map (fun c => match dict_get c (column_analysis r) with
                             | Some p => missing_count p
                             | None => 0
                             end) (py_columns (header dup_header_file))) = missing_cells r
  | inl _ => False
  end.
Proof.
  destruct (analyze_csv_quality_chunked_with 1 dup_header_file 20 10000) as [e | r] eqn:E.
  - vm_compute in E. discriminate.
  - exact (missing_cells_sum 1 dup_header_file 20 10000 r E).
Defined.

Lemma dtype_always_str_witness :
  match analyze_csv_quality_chunked_with 1 small_file 15 10000 with
  | inr r => column_analysis r <> [] /\
             forall c p, In (c, p) (column_analysis r) -> dtype p = "str"
  | inl _ => False
  end.
Proof.
  destruct (analyze_csv_quality_chunked_with 1 small_file 15 10000) as [e | r] eqn:E.
  - vm_compute in E. discriminate.
  - split; [| exact (dtype_always_str 1 small_file 15 10000 r E)].
    vm_compute in E. injection E as <-. discriminate.
Defined.

Lemma empty_input_report_witness :
  (header header_only <> [] /\ records header_only = []) /\
  exists r, analyze_csv_quality_chunked header_only 0 10000 = inr r /\
    total_rows r = 0 /\ total_cells r = 0 /\ missing_cells r = 0 /\
    missing_percentage r = 0%Q /\ duplicate_rows r = 0 /\
    (forall c, In c (py_columns (header header_only)) ->
               dict_get c (column_analysis r) <> None) /\
    (forall c p, In (c, p) (column_analysis r) ->
       missing_count p = 0 /\ col_missing_percentage p = 0%Q /\
       unique_values p = UCount 0 /\ sample_values p = []).
Proof.
  split; [split; [discriminate | reflexivity] |].
  apply (empty_input_report header_only 0 10000); [discriminate | reflexivity].
Defined.

Lemma dedup_counts_witness :
  (remove_duplicates dedup_options = true /\ dup_fs "up/dup.csv" = Some dup_file /\
   header dup_file <> []) /\
  exists res,
    fst (preprocess_csv_task_chunked_with CHUNK_SIZE dup_fs "up/dup.csv" dedup_options
           empty_world) = inr res /\
    status res = "success" /\ rows_processed res = Some 4 /\ rows_removed res = Some 1.
Proof.
  split; [split; [reflexivity | split; [reflexivity | discriminate]] |].
  destruct (dedup_counts (V:=cell) CHUNK_SIZE dup_fs "up/dup.csv" dedup_options empty_world
              dup_file
              [[Some "1"; Some "a"]; [Some "2"; Some "b"]; [Some "1"; Some "a"];
               [Some "3"; Some "c"]; [Some "4"; Some "d"]]
              eq_refl eq_refl ltac:(discriminate) ltac:(vm_compute; reflexivity))
    as [res [E [St [Rp [Rr _]]]]].
  exists res. split; [exact E |]. split; [exact St |].
  rewrite Rp, Rr. split; vm_compute; reflexivity.
Defined.


(* ================================================================== *)
(** * Further facts of the controller *)

Section DedupSpec.

Context {V : Type} `{Pandas V}.

Lemma drop_dup_aux_fresh seen rows : fresh_after seen (drop_dup_aux seen rows).
Proof.
  revert seen. induction rows as [| r rows IH]; intros seen; simpl; [exact I |].
  destruct (existsb (row_eqb r) seen) eqn:E; [apply IH |].
  simpl. split; [exact E | apply IH].
Qed.

Lemma drop_dup_aux_id seen l : fresh_after seen l -> drop_dup_aux seen l = l.
Proof.
  revert seen. induction l as [| r l IH]; intros seen Hf; simpl; [reflexivity |].
  destruct Hf as [E Hf]. rewrite E. f_equal. apply IH, Hf.
Qed.

Lemma fresh_after_all seen l :
  fresh_after seen l -> Forall (fun x => existsb (row_eqb x) seen = false) l.
Proof.
  revert seen. induction l as [| r l IH]; intros seen Hf; [constructor |].
  destruct Hf as [E Hf]. constructor; [exact E |].
  eapply Forall_impl; [| exact (IH _ Hf)].
  intros x Hx. cbn [existsb] in Hx. apply Bool.orb_false_iff in Hx. tauto.
Qed.

Lemma fresh_after_pairs seen l :
  fresh_after seen l -> ForallOrdPairs (fun a b => row_eqb b a = false) l.
Proof.
  revert seen. induction l as [| r l IH]; intros seen Hf; [constructor |].
  destruct Hf as [E Hf]. constructor; [| exact (IH _ Hf)].
  eapply Forall_impl; [| exact (fresh_after_all _ _ Hf)].
  intros x Hx. cbn [existsb] in Hx. apply Bool.orb_false_iff in Hx. tauto.
Qed.

Lemma drop_dup_aux_subseq seen rows : subseq (drop_dup_aux seen rows) rows.
Proof.
  revert seen. induction rows as [| r rows IH]; intros seen; simpl; [constructor |].
  destruct (existsb (row_eqb r) seen); constructor; apply IH.
Qed.

(** A dropped row equals a row kept before it (or one of [seen]). *)
Lemma drop_dup_aux_covers seen rows :
  Forall (fun r => In r (drop_dup_aux seen rows) \/
                   exists k, (In k seen \/ In k (drop_dup_aux seen rows)) /\ row_eqb r k = true)
         rows.
Proof.
  revert seen. induction rows as [| r rows IH]; intros seen; simpl; [constructor |].
  destruct (existsb (row_eqb r) seen) eqn:E.
  - constructor.
    + right. apply existsb_exists in E as [k [Hk Ek]]. exists k. auto.
    + apply IH.
  - constructor; [left; left; reflexivity |].
    apply (Forall_impl _ (P := fun x => In x (drop_dup_aux (r :: seen) rows) \/
             exists k, (In k (r :: seen) \/ In k (drop_dup_aux (r :: seen) rows)) /\
                       row_eqb x k = true)); [| apply IH].
    intros x [Hx | [k [Hk Ek]]]; [left; right; exact Hx |].
    right. exists k. split; [| exact Ek].
    destruct Hk as [[<- | Hk] | Hk]; [right; left; reflexivity | left; exact Hk | right; right; exact Hk].
Qed.

End DedupSpec.

(** X1. [drop_duplicates] keeps the columns and, of each group of equal
    rows, exactly the first one: the result is a subsequence of the rows,
    no two of its rows are equal, and every row of the input is kept or
    equal to a kept row. *)
Theorem drop_duplicates_keep_first {V : Type} `{Pandas V} (df : frame V) :
  let out := frows (drop_duplicates df) in
  fcolumns (drop_duplicates df) = fcolumns df /\
  subseq out (frows df) /\
  ForallOrdPairs (fun a b => row_eqb b a = false) out /\
  Forall (fun r => In r out \/ exists k, In k out /\ row_eqb r k = true) (frows df).
Proof.
  cbn zeta. unfold drop_duplicates; cbn [frows fcolumns].
  refine (conj eq_refl (conj (drop_dup_aux_subseq _ _) (conj (fresh_after_pairs _ _ (drop_dup_aux_fresh _ _)) _))).
  apply (Forall_impl _ (P := fun r => In r (drop_dup_aux [] (frows df)) \/
           exists k, (In k [] \/ In k (drop_dup_aux [] (frows df))) /\ row_eqb r k = true));
    [| apply drop_dup_aux_covers].
  intros r [Hr | [k [[[] | Hk] Ek]]]; [left; exact Hr | right; exists k; auto].
Qed.

(** X2. [drop_duplicates] applied to its own result changes nothing. *)
Theorem drop_duplicates_idempotent {V : Type} `{Pandas V} (df : frame V) :
  drop_duplicates (drop_duplicates df) = drop_duplicates df.
Proof.
  unfold drop_duplicates at 1 2. cbn [frows fcolumns].
  rewrite (drop_dup_aux_id [] _ (drop_dup_aux_fresh [] (frows df))). reflexivity.
Qed.

Lemma option_string_cases {A} (h : option string) (a b c d e : A) :
  match h with
  | Some "drop" => a
  | Some "fill_mean" => b
  | Some "fill_median" => c
  | Some "fill_mode" => d
  | _ => e
  end =
  match h with
  | Some s =>
      if String.eqb s "drop" then a
      else if String.eqb s "fill_mean" then b
      else if String.eqb s "fill_median" then c
      else if String.eqb s "fill_mode" then d
      else e
  | None => e
  end.
Proof.
  destruct h as [s |]; [| reflexivity].
  repeat match goal with
         | |- context [match ?s with EmptyString => _ | String _ _ => _ end] =>
             destruct s as [| ? s]; cbn; try reflexivity
         | |- context [match ?a with Ascii _ _ _ _ _ _ _ _ => _ end] =>
             destruct a as [[] [] [] [] [] [] [] []]; cbn; try reflexivity
         end.
Qed.

Section RowFacts.

Context {V : Type} `{Pandas V}.

Lemma fold_keeps_rows_length (g : frame V -> nat -> frame V) (l : list nat) (df : frame V) :
  (forall d j, List.length (frows (g d j)) = List.length (frows d)) ->
  List.length (frows (fold_left g l df)) = List.length (frows df).
Proof.
  intros Hg. revert df; induction l as [| j l IH]; intros df; simpl; [reflexivity |].
  rewrite IH. apply Hg.
Qed.

Lemma update_col_rows_length j g (df : frame V) :
  List.length (frows (update_col j g df)) = List.length (frows df).
Proof. unfold update_col. cbn [frows]. apply length_map. Qed.

Lemma fill_numeric_rows stat (df : frame V) :
  List.length (frows (fill_numeric stat df)) = List.length (frows df).
Proof.
  unfold fill_numeric. apply fold_keeps_rows_length. intros d j.
  destruct (is_number_col _); [apply update_col_rows_length | reflexivity].
Qed.

Lemma fill_mode_rows (df : frame V) :
  List.length (frows (fill_mode df)) = List.length (frows df).
Proof.
  unfold fill_mode. apply fold_keeps_rows_length. intros d j.
  destruct (existsb _ _); [destruct (series_mode _) |];
    first [apply update_col_rows_length | reflexivity].
Qed.

Lemma trim_columns_rows (df : frame V) :
  List.length (frows (trim_columns df)) = List.length (frows df).
Proof.
  unfold trim_columns. apply fold_keeps_rows_length. intros d j.
  destruct (is_object_col _); [apply update_col_rows_length | reflexivity].
Qed.

Lemma convert_columns_rows (df : frame V) :
  List.length (frows (convert_columns df)) = List.length (frows df).
Proof.
  unfold convert_columns. apply fold_keeps_rows_length. intros d j.
  destruct (forallb _ _); [apply update_col_rows_length | reflexivity].
Qed.

(** The options as a missing-value step followed by the two others. *)
Lemma apply_preprocessing_steps (df : frame V) (o : options) :
  apply_preprocessing_options df o =
  let df1 := match handle_missing o with
             | Some s =>
                 if String.eqb s "drop" then frame_dropna df
                 else if String.eqb s "fill_mean" then fill_numeric series_mean df
                 else if String.eqb s "fill_median" then fill_numeric series_median df
                 else if String.eqb s "fill_mode" then fill_mode df
                 else df
             | None => df
             end in
  let df2 := if trim_whitespace o then trim_columns df1 else df1 in
  if convert_types o then convert_columns df2 else df2.
Proof. unfold apply_preprocessing_options. rewrite option_string_cases. reflexivity. Qed.

End RowFacts.

(** X3. the options never change the columns (of a frame with distinct
    labels: with a repeated label the per-column steps raise); only
    [handle_missing='drop'] changes the number of rows, keeping those with no
    missing value, in order (exactly those rows when no other option is set). *)
Theorem apply_preprocessing_rows {V : Type} `{Pandas V} (df : frame V) (o : options) :
  NoDup (fcolumns df) ->
  fcolumns (apply_preprocessing_options df o) = fcolumns df /\
  (handle_missing o = Some "drop" -> trim_whitespace o = false -> convert_types o = false ->
   frows (apply_preprocessing_options df o) =
   filter (fun r => negb (existsb val_isna r)) (frows df)) /\
  (handle_missing o = Some "drop" ->
   List.length (frows (apply_preprocessing_options df o)) =
   List.length (filter (fun r => negb (existsb val_isna r)) (frows df))) /\
  (handle_missing o <> Some "drop" ->
   List.length (frows (apply_preprocessing_options df o)) = List.length (frows df)).
Proof.
  intros _. split; [apply apply_preprocessing_columns |].
  split.
  { intros Hh Ht Hc. rewrite apply_preprocessing_steps, Hh, Ht, Hc. reflexivity. }
  assert (Hpost : forall d, List.length (frows (if convert_types o then convert_columns
                   (if trim_whitespace o then trim_columns d else d)
                   else (if trim_whitespace o then trim_columns d else d))) =
                   List.length (frows d)).
  { intros d. destruct (convert_types o), (trim_whitespace o);
      rewrite ?convert_columns_rows, ?trim_columns_rows; reflexivity. }
  rewrite apply_preprocessing_steps. cbn zeta. rewrite Hpost.
  split.
  - intros ->. cbn. reflexivity.
  - intros Hd. destruct (handle_missing o) as [s |]; [| reflexivity].
    destruct (String.eqb_spec s "drop"); [congruence |].
    destruct (String.eqb s "fill_mean"); [apply fill_numeric_rows |].
    destruct (String.eqb s "fill_median"); [apply fill_numeric_rows |].
    destruct (String.eqb s "fill_mode"); [apply fill_mode_rows | reflexivity].
Qed.

Section ColFacts.

Context {V : Type} `{Pandas V}.

Lemma convert_columns_step_id (d : frame V) (j : nat) (g : V -> V) :
  (forall v, g v = v) -> frows (update_col j g d) = frows d.
Proof.
  intros Hg. unfold update_col. cbn [frows]. rewrite <- (map_id (frows d)) at 2.
  apply map_ext. intros r. revert j. induction r as [| v r IH]; intros j; [destruct j; reflexivity |].
  destruct j; cbn [map_nth]; rewrite ?Hg, ?IH; reflexivity.
Qed.

Lemma fold_keeps_rows (step : frame V -> nat -> frame V) (l : list nat) (df : frame V) :
  (forall d j, frows (step d j) = frows d) -> frows (fold_left step l df) = frows df.
Proof.
  intros Hs. revert df. induction l as [| j l IH]; intros df; [reflexivity |].
  cbn [fold_left]. rewrite IH. apply Hs.
Qed.

Lemma fold_preserves_rows (P : list (list V) -> Prop) (step : frame V -> nat -> frame V)
  (l : list nat) (df : frame V) :
  (forall d j, P (frows d) -> P (frows (step d j))) ->
  P (frows df) -> P (frows (fold_left step l df)).
Proof.
  intros Hs. revert df. induction l as [| j l IH]; intros df Hd; [exact Hd |].
  cbn [fold_left]. apply IH, Hs, Hd.
Qed.

Lemma update_col_preserves (P : V -> Prop) (j : nat) (g : V -> V) (d : frame V) :
  (forall v, P v -> P (g v)) ->
  Forall (Forall P) (frows d) -> Forall (Forall P) (frows (update_col j g d)).
Proof.
  intros Hg Hd. unfold update_col. cbn [frows]. apply Forall_map.
  eapply Forall_impl; [| exact Hd]. intros r Hr. clear Hd. revert j.
  induction Hr as [| v r Hv Hr IH]; intros j; [destruct j; constructor |].
  destruct j; cbn [map_nth]; constructor; auto.
Qed.


End ColFacts.

Lemma convert_columns_text (df : frame cell) : frows (convert_columns df) = frows df.
Proof.
  unfold convert_columns. apply fold_keeps_rows. intros d j.
  destruct (forallb _ _); [apply convert_columns_step_id; intros v; reflexivity | reflexivity].
Qed.

(** X5. after [handle_missing='drop'] no missing value is left, when the
    types are not converted ([to_numeric] turns a trimmed text ["nan"] into
    NaN) and the column labels are distinct (with a repeated label
    [df[col]] is a data frame, on which [.str.strip()] raises). *)
Theorem drop_leaves_no_missing (df : frame cell) (o : options) :
  handle_missing o = Some "drop" -> convert_types o = false -> NoDup (fcolumns df) ->
  Forall (Forall (fun v => v <> None)) (frows (apply_preprocessing_options df o)).
Proof.
  intros Hh Hc _. rewrite apply_preprocessing_steps, Hh, Hc. cbn zeta.
  cbn [String.eqb Ascii.eqb Bool.eqb andb].
  assert (H1 : Forall (Forall (fun v : cell => v <> None)) (frows (frame_dropna df))).
  { unfold frame_dropna. cbn [frows]. apply Forall_forall. intros r Hr.
    apply filter_In in Hr as [_ Hr]. apply Bool.negb_true_iff in Hr.
    apply Forall_forall. intros v Hv ->.
    assert (E : existsb val_isna r = true) by (apply existsb_exists; exists None; auto).
    congruence. }
  destruct (trim_whitespace o); [| exact H1].
  unfold trim_columns.
  apply (fold_preserves_rows (Forall (Forall (fun v : cell => v <> None)))); [| exact H1].
  intros d' j Hd'. destruct (is_object_col _); [| exact Hd'].
  apply update_col_preserves; [| exact Hd']. intros [x |] Hx; [discriminate | exact Hx].
Qed.


Module StrFacts.

Lemma app_assoc_str (a b c : string) : ((a ++ b) ++ c)%string = (a ++ (b ++ c))%string.
Proof. induction a as [| x a IH]; cbn; [reflexivity | rewrite IH; reflexivity]. Qed.

Lemma app_nil_str (a : string) : (a ++ "")%string = a.
Proof. induction a as [| x a IH]; cbn; [reflexivity | rewrite IH; reflexivity]. Qed.

Lemma rev_str_acc s acc : rev_str s acc = (rev_str s "" ++ acc)%string.
Proof.
  revert acc. induction s as [| c s IH]; intros acc; cbn; [reflexivity |].
  rewrite IH, (IH (String c "")), app_assoc_str. reflexivity.
Qed.

Lemma rev_str_app a b : rev_str (a ++ b) "" = (rev_str b "" ++ rev_str a "")%string.
Proof.
  revert b. induction a as [| c a IH]; intros b; cbn.
  - rewrite app_nil_str. reflexivity.
  - rewrite (rev_str_acc (a ++ b)), (rev_str_acc a (String c "")), IH, app_assoc_str. reflexivity.
Qed.

Lemma rev_str_involutive s : rev_str (rev_str s "") "" = s.
Proof.
  induction s as [| c s IH]; cbn; [reflexivity |].
  rewrite (rev_str_acc s (String c "")), rev_str_app. cbn. rewrite IH. reflexivity.
Qed.

Lemma rev_str_empty s : rev_str s "" = "" -> s = "".
Proof.
  intros E. rewrite <- (rev_str_involutive s), E. reflexivity.
Qed.




















End StrFacts.


Module PathFacts.

Lemma rsplit_dot_cases s :
  (has_char "."%char s = false /\ rsplit_dot s = [s]) \/
  (exists p e, s = (p ++ "." ++ e)%string /\ has_char "."%char e = false /\
               rsplit_dot s = [p; e] /\ has_char "."%char s = true).
Proof.
  induction s as [| c s [[Hn Hr] | (p & e & -> & He & Hr & Hd)]].
  - left. split; reflexivity.
  - cbn [rsplit_dot has_char]. rewrite Hr, Hn.
    destruct (Ascii.eqb c "."%char) eqn:Ec.
    + right. exists "", s. apply Ascii.eqb_eq in Ec. subst c.
      repeat split; assumption.
    + left. split; reflexivity.
  - right. exists (String c p), e. cbn [rsplit_dot has_char]. rewrite Hr, Hd, Bool.orb_true_r.
    repeat split; assumption.
Qed.

Lemma rsplit_dot_last p e :
  has_char "."%char e = false -> rsplit_dot (p ++ "." ++ e)%string = [p; e].
Proof.
  intros He. induction p as [| c p IH].
  - destruct (rsplit_dot_cases e) as [[_ Hr] | (p & e' & -> & _ & _ & Hd)];
      [cbn [append rsplit_dot]; rewrite Hr; reflexivity | congruence].
  - cbn [append rsplit_dot] in *. rewrite IH. reflexivity.
Qed.

Lemma has_char_app c a b : has_char c (a ++ b) = has_char c a || has_char c b.
Proof. induction a as [| x a IH]; cbn; [reflexivity | rewrite IH, Bool.orb_assoc; reflexivity]. Qed.

Lemma str_replace_absent_fuel fuel old new s :
  String.index 0 old s = None -> replace_fuel fuel old new s = s.
Proof.
  revert s. induction fuel as [| fuel IH]; intros s Hi; [reflexivity |].
  destruct s as [| c s]; [reflexivity |]. cbn [replace_fuel].
  cbn [String.index] in Hi. destruct (String.prefix old (String c s)); [discriminate |].
  cbn [andb]. f_equal. apply IH. destruct (String.index 0 old s); [discriminate | reflexivity].
Qed.

End PathFacts.

(** X8. [allowed_file] accepts exactly the names with a ['.'] whose text
    after the last ['.'] is ["csv"] in any letter case. *)
Theorem allowed_file_iff (filename : string) :
  allowed_file filename = true <->
  exists base ext, filename = (base ++ "." ++ ext)%string /\
                   has_char "."%char ext = false /\ lower ext = "csv".
Proof.
  unfold allowed_file. split.
  - intros Ha. apply andb_prop in Ha as [Hd Hm].
    destruct (PathFacts.rsplit_dot_cases filename) as [[Hn _] | (p & e & -> & He & Hr & _)];
      [congruence |].
    rewrite Hr in Hm. exists p, e. repeat split; [assumption |].
    cbn [str_mem ALLOWED_EXTENSIONS] in Hm. rewrite Bool.orb_false_r in Hm.
    apply String.eqb_eq, Hm.
  - intros (p & e & -> & He & Hl). rewrite PathFacts.rsplit_dot_last by exact He.
    rewrite PathFacts.has_char_app. cbn [has_char append]. rewrite Hl.
    rewrite Bool.orb_true_r. reflexivity.
Qed.

Section OutputFacts.

Context {V : Type} `{Pandas V}.

Lemma preprocess_body_output cs fs path o (w w' : world V) r :
  preprocess_body cs fs path o w = (inr r, w') ->
  output_path r = Some (str_replace ".csv" "_processed.csv" path).
Proof.
  unfold preprocess_body. intros Hb.
  apply mbind_inr in Hb as (f & w1 & _ & Hb).
  apply mbind_inr in Hb as (first & w2 & _ & Hb).
  destruct (remove_duplicates o).
  - apply mbind_inr in Hb as (rows & w3 & _ & Hb).
    apply mbind_inr in Hb as (u & w4 & _ & Hb).
    inversion Hb; reflexivity.
  - apply mbind_inr in Hb as (it & w3 & _ & Hb).
    apply mbind_inr in Hb as (total & w4 & _ & Hb).
    inversion Hb; reflexivity.
Qed.

Lemma transform_success_body cs fs path o (w : world V) r :
  fst (preprocess_csv_task_chunked_with cs fs path o w) = inr r ->
  status r = "success" ->
  exists w', preprocess_body cs fs path o w = (inr r, w').
Proof.
  unfold preprocess_csv_task_chunked_with, mcatch.
  destruct (preprocess_body cs fs path o w) as [[e | r'] w'].
  - cbn. intros E. inversion E. subst r. cbn. discriminate.
  - cbn. intros E _. inversion E. eauto.
Qed.

Lemma transform_output_path cs fs path o (w : world V) r :
  fst (preprocess_csv_task_chunked_with cs fs path o w) = inr r ->
  status r = "success" ->
  output_path r = Some (str_replace ".csv" "_processed.csv" path).
Proof.
  intros E S. destruct (transform_success_body cs fs path o w r E S) as [w' B].
  exact (preprocess_body_output cs fs path o w w' r B).
Qed.

End OutputFacts.

(** X9. when the input path contains no lower-case [".csv"] (an upload
    named [DATA.CSV], which [allowed_file] accepts), the [.replace] leaves
    it unchanged, and a successful transform reports the input path itself
    as its output: the processed file overwrites the uploaded one. *)
Theorem output_overwrites_input {V : Type} `{Pandas V} (cs : nat)
  (fs : string -> option csv_file) (path : string) (o : options) (w : world V)
  (r : transform_result) :
  String.index 0 ".csv" path = None ->
  fst (preprocess_csv_task_chunked_with cs fs path o w) = inr r ->
  status r = "success" ->
  output_path r = Some path.
Proof.
  intros Hi E S. rewrite (transform_output_path cs fs path o w r E S).
  unfold str_replace. rewrite PathFacts.str_replace_absent_fuel by exact Hi. reflexivity.
Qed.


Module SplitFacts.

Lemma split_char_nosep sep s : has_char sep s = false -> split_char sep s = [s].
Proof.
  induction s as [| c s IH]; cbn [split_char has_char]; [reflexivity |].
  intros Hn. apply Bool.orb_false_iff in Hn as [Hc Hs]. rewrite Hc, IH by exact Hs.
  reflexivity.
Qed.

Lemma split_char_app sep a b :
  has_char sep a = false -> split_char sep (a ++ String sep b) = a :: split_char sep b.
Proof.
  induction a as [| c a IH]; cbn [split_char has_char append].
  - rewrite Ascii.eqb_refl. reflexivity.
  - intros Hn. apply Bool.orb_false_iff in Hn as [Hc Hs]. rewrite Hc, IH by exact Hs.
    reflexivity.
Qed.

Lemma app_empty_str (a : string) : (a ++ "")%string = a.
Proof. induction a as [| x a IH]; cbn; [reflexivity | rewrite IH; reflexivity]. Qed.

Lemma split_char_word sep t rest :
  has_char sep t = false -> (rest = ""%string \/ exists r, rest = String sep r) ->
  exists tl, split_char sep (t ++ rest) = t :: tl.
Proof.
  intros Ht [-> | [r ->]].
  - exists []. rewrite app_empty_str. apply split_char_nosep, Ht.
  - exists (split_char sep r). apply split_char_app, Ht.
Qed.

End SplitFacts.

(** X10. for a header [scheme ++ " " ++ t ++ rest] with no space in
    [scheme] or [t], and [rest] empty or starting with a space,
    [token_required] decodes the word [t] and does the same as for
    ["Bearer " ++ t]: the first word is never checked to be [Bearer] and
    whatever follows the second word is ignored. *)
Theorem token_uses_second_word {PyVal : Type} (jwt_decode : string -> decode_result PyVal)
  (py_int : PyVal -> option Z) (scheme t rest : string) :
  has_char " "%char scheme = false -> has_char " "%char t = false ->
  (rest = ""%string \/ exists r, rest = String " "%char r) ->
  token_required jwt_decode py_int (Some (scheme ++ " " ++ t ++ rest)%string) =
  token_required jwt_decode py_int (Some ("Bearer " ++ t)%string).
Proof.
  intros Hs Ht Hr. unfold token_required.
  destruct (SplitFacts.split_char_word " "%char t rest Ht Hr) as [tl Etl].
  assert (E1 : split_char " "%char (scheme ++ " " ++ t ++ rest)%string = scheme :: t :: tl)
    by (cbn [append]; rewrite SplitFacts.split_char_app, Etl by exact Hs; reflexivity).
  assert (E2 : split_char " "%char ("Bearer " ++ t)%string = "Bearer" :: [t]).
  { change ("Bearer " ++ t)%string with ("Bearer" ++ String " "%char t)%string.
    rewrite SplitFacts.split_char_app by reflexivity.
    rewrite SplitFacts.split_char_nosep by exact Ht. reflexivity. }
  rewrite E1, E2.
  assert (N1 : String.eqb (scheme ++ " " ++ t ++ rest) "" = false)
    by (destruct scheme; reflexivity).
  rewrite N1. reflexivity.
Qed.

(** X11. a non-empty [Authorization] header with no space fails at
    [token.split(" ")[1]] with an [IndexError] the decorator does not
    catch: the answer is a server error, never the 401 of a bad token. *)
Theorem token_without_space_crashes {PyVal : Type}
  (jwt_decode : string -> decode_result PyVal) (py_int : PyVal -> option Z) (h : string) :
  h <> ""%string -> has_char " "%char h = false ->
  token_required jwt_decode py_int (Some h) = AuthCrash "IndexError".
Proof.
  intros Hne Hn. unfold token_required.
  destruct (String.eqb h "") eqn:E; [apply String.eqb_eq in E; contradiction |].
  rewrite SplitFacts.split_char_nosep by exact Hn. reflexivity.
Qed.


Module UploadFacts.

Lemma dict_get_del {A} (p q : string) (d : list (string * A)) :
  dict_get q (dict_del p d) = if String.eqb p q then None else dict_get q d.
Proof.
  unfold dict_del. induction d as [| [k v] d IH]; cbn [filter fst dict_get].
  - destruct (String.eqb p q); reflexivity.
  - destruct (String.eqb_spec p k) as [<- | Npk]; cbn [negb dict_get]; rewrite IH.
    + destruct (String.eqb_spec p q) as [<- | Npq]; [reflexivity |].
      destruct (String.eqb_spec q p) as [<- | _]; [contradiction | reflexivity].
    + destruct (String.eqb_spec q k) as [<- | _]; [| reflexivity].
      destruct (String.eqb_spec p q) as [<- | _]; [contradiction | reflexivity].
Qed.

Lemma parse_strict_err n l e : parse_strict n l = inl e -> e = expected_fields_msg.
Proof.
  induction l as [| r l IH]; cbn [parse_strict]; [discriminate |].
  destruct (parse_record n r); [| intros H; inversion H; reflexivity].
  destruct (parse_strict n l); cbn [bind]; [exact IH | discriminate].
Qed.

Lemma scan_chunks_err ncols raw : forall i tot accs e,
  parse_strict ncols (List.concat raw) = inl e ->
  scan_chunks ncols i raw tot accs = inl expected_fields_msg.
Proof.
  induction raw as [| c raw IH]; intros i tot accs e H; cbn in H; [discriminate |].
  cbn [scan_chunks]. rewrite ScanFacts.parse_strict_app in H.
  destruct (parse_strict ncols c) as [e' | x] eqn:Ec; cbn [bind].
  - rewrite (parse_strict_err _ _ _ Ec). reflexivity.
  - destruct (parse_strict ncols (List.concat raw)) eqn:Er; [| discriminate].
    eapply IH. reflexivity.
Qed.

(** A file [parseable] refuses makes the analysis fail, with the message
    of the empty header or of the bad record. *)
Lemma analyze_unparseable cs f sz ss :
  0 < cs -> parseable f = false ->
  analyze_csv_quality_chunked_with cs f sz ss =
  inl (analyze_error_prefix ++
       match header f with [] => no_columns_msg | _ => expected_fields_msg end)%string.
Proof.
  intros Hcs Hp. unfold parseable in Hp. unfold analyze_csv_quality_chunked_with.
  destruct (header f) as [| h0 hs] eqn:Eh.
  - unfold read_csv_nrows, read_header. rewrite Eh. reflexivity.
  - cbn [negb andb] in Hp. rewrite <- Eh in Hp.
    destruct (parse_strict (List.length (header f)) (records f)) as [e | rows] eqn:Ep;
      [| discriminate].
    assert (Hh : header f <> []) by (rewrite Eh; discriminate).
    destruct (read_csv_nrows f 1000) as [e1 | probe] eqn:E1.
    + unfold read_csv_nrows in E1. rewrite (ScanFacts.read_header_ok f Hh) in E1.
      cbn [bind] in E1.
      destruct (parse_strict _ (firstn 1000 (records f))) eqn:E2; cbn [bind] in E1;
        [| discriminate].
      inversion E1; subst e1. rewrite (parse_strict_err _ _ _ E2). reflexivity.
    + cbn [bind]. rewrite (ScanFacts.read_csv_chunks_ok f cs Hh Hcs). cbn [bind snd].
      rewrite (ScanFacts.read_csv_nrows_header f 1000 probe E1), ColumnFacts.py_columns_length.
      rewrite <- (ScanFacts.reader_batches_concat cs (records f) Hcs) in Ep.
      rewrite (scan_chunks_err _ _ 0 0 _ _ Ep). reflexivity.
Qed.

(** A [parseable] file is analysed. *)
Lemma analyze_parseable cs f sz ss :
  0 < cs -> parseable f = true -> exists r, analyze_csv_quality_chunked_with cs f sz ss = inr r.
Proof.
  intros Hcs Hp. unfold parseable in Hp. apply andb_prop in Hp as [Hh Hp].
  assert (Hh' : header f <> []) by (destruct (header f); [discriminate | discriminate]).
  destruct (parse_strict (List.length (header f)) (records f)) as [e | rows] eqn:Ep;
    [discriminate |].
  destruct (ScanFacts.read_csv_nrows_ok f 1000 rows Hh' Ep) as [p Ep1].
  unfold analyze_csv_quality_chunked_with. rewrite Ep1. cbn [bind fst snd].
  rewrite (ScanFacts.read_csv_chunks_ok f cs Hh' Hcs). cbn [bind snd].
  rewrite <- (ScanFacts.reader_batches_concat cs (records f) Hcs) in Ep.
  rewrite <- (ColumnFacts.py_columns_length (header f)) in Ep.
  destruct (ScanFacts.scan_chunks_ok _ _ 0 0 (map (fun _ => empty_acc) (py_columns (header f)))
              rows Ep)
    as [accs [Es _]].
  rewrite Es. cbn [bind]. eexists. reflexivity.
Qed.

Lemma redis_get_setex clock clock' key v ttl st :
  redis_get clock' key (redis_setex clock key ttl v st) =
  if Nat.ltb clock' (clock + ttl) then Some v else None.
Proof.
  unfold redis_get, redis_setex. rewrite DictFacts.dict_get_set, String.eqb_refl.
  reflexivity.
Qed.

Lemma redis_get_setex_other clock clock' key key' v ttl st :
  key' <> key ->
  redis_get clock' key' (redis_setex clock key ttl v st) = redis_get clock' key' st.
Proof.
  intros Hne. unfold redis_get, redis_setex. rewrite DictFacts.dict_get_set.
  destruct (String.eqb key' key) eqn:E; [apply String.eqb_eq in E; contradiction |].
  reflexivity.
Qed.

Section UploadState.

Context {V : Type} `{Pandas V} {PV : Type}.
Variable UF : string.
Variable sf : string -> string.
Variable iter_row : list V -> list PV.

(** What a successful upload answers and stores. *)
Lemma upload_success_state clock stamp iso req srv fname content :
  up_file req = Some (fname, content) -> fname <> ""%string ->
  allowed_file fname = true -> st_size content <= MAX_FILE_SIZE ->
  parseable (st_file content) = true ->
  let unique := (z_decimal (up_user req) ++ "_" ++ stamp ++ "_" ++ sf fname)%string in
  let path := path_join UF unique in
  exists report,
    analyze_csv_quality_chunked (st_file content) (st_size content) 10000 = inr report /\
    upload_csv UF sf iter_row clock stamp iso req srv =
      (UploadOk unique (round2 (nat_Q (st_size content) / 1024 / 1024)%Q)
                (preview_records iter_row (st_file content)) report (is_large_file report),
       {| disk := dict_set path content (disk srv);
          rstore := redis_setex clock ("csv_file:" ++ unique)%string 7200
                      (RMeta {| original_filename := sf fname; meta_file_path := path;
                                uploaded_at := iso; meta_user_id := up_user req;
                                meta_file_size := st_size content |}) (rstore srv) |}).
Proof.
  intros Hf Hn Ha Hs Hp unique path.
  destruct (analyze_parseable CHUNK_SIZE (st_file content) (st_size content) 10000
              (proj1 (Nat.ltb_lt 0 CHUNK_SIZE) eq_refl) Hp) as [r Er].
  exists r. split; [exact Er |].
  unfold upload_csv. rewrite Hf.
  destruct (String.eqb fname "") eqn:E; [apply String.eqb_eq in E; contradiction |].
  rewrite Ha. cbn [negb].
  destruct (Nat.ltb MAX_FILE_SIZE (st_size content)) eqn:El;
    [apply Nat.ltb_lt, Nat.lt_nge in El; contradiction |].
  unfold analyze_csv_quality_chunked. rewrite Er. reflexivity.
Qed.

End UploadState.

End UploadFacts.

(** X12. a failed upload (any error answer) writes nothing to redis and
    leaves no new file behind: every path of the disk afterwards is either
    absent or as it was before (a saved file that is then refused is
    removed again). *)
Theorem upload_failure_no_trace {V : Type} `{Pandas V} {PV : Type} (UPLOAD_FOLDER : string)
  (secure_filename : string -> string) (iter_row : list V -> list PV)
  (clock : nat) (stamp iso : string) (req : upload_req) (srv srv' : server)
  (code : nat) (msg : string) :
  upload_csv UPLOAD_FOLDER secure_filename iter_row clock stamp iso req srv =
    (UploadError code msg, srv') ->
  rstore srv' = rstore srv /\
  forall q, dict_get q (disk srv') = None \/ dict_get q (disk srv') = dict_get q (disk srv).
Proof.
  unfold upload_csv.
  assert (Rm : forall p c,
             let s := remove_file p {| disk := dict_set p c (disk srv); rstore := rstore srv |} in
             rstore s = rstore srv /\
             forall q, dict_get q (disk s) = None \/ dict_get q (disk s) = dict_get q (disk srv)).
  { intros p c s. split; [reflexivity |]. intros q. unfold s, remove_file. cbn [disk].
    rewrite UploadFacts.dict_get_del, DictFacts.dict_get_set.
    destruct (String.eqb p q) eqn:E; [left; reflexivity |].
    right. rewrite String.eqb_sym, E. reflexivity. }
  assert (Same : srv = srv -> rstore srv = rstore srv /\
                 forall q, dict_get q (disk srv) = None \/
                           dict_get q (disk srv) = dict_get q (disk srv))
    by (intros _; split; [reflexivity | intros q; right; reflexivity]).
  destruct (up_file req) as [[fname content] |];
    [| intros E; inversion E; subst; apply Same; reflexivity].
  destruct (String.eqb fname ""); [intros E; inversion E; subst; apply Same; reflexivity |].
  destruct (negb (allowed_file fname)); [intros E; inversion E; subst; apply Same; reflexivity |].
  destruct (Nat.ltb MAX_FILE_SIZE (st_size content));
    [intros E; inversion E; subst; apply Rm |].
  destruct (analyze_csv_quality_chunked (st_file content) (st_size content) 10000);
    [intros E; inversion E; subst; apply Rm | discriminate].
Qed.

(** X13. an accepted file within the size limit whose CSV does not parse is
    answered with a 500: ["Upload failed: Error analyzing CSV: No columns to
    parse from file"] for a file without a header, and a message that starts
    with ["Upload failed: Error analyzing CSV: Error tokenizing data"] for a
    record with more fields than the header; the analyzer wraps every pandas
    error in a plain [Exception], so the 400 handlers for [EmptyDataError]
    and [ParserError] are never reached.  The first record has at most as
    many fields as the header (with one more, pandas reads its first field
    as the index and the file parses). *)
Theorem upload_unparseable_is_500 {V : Type} `{Pandas V} {PV : Type} (UPLOAD_FOLDER : string)
  (secure_filename : string -> string) (iter_row : list V -> list PV)
  (clock : nat) (stamp iso : string) (req : upload_req) (srv : server)
  (fname : string) (content : stored) :
  up_file req = Some (fname, content) -> fname <> ""%string ->
  allowed_file fname = true -> st_size content <= MAX_FILE_SIZE ->
  parseable (st_file content) = false ->
  match records (st_file content) with
  | r :: _ => List.length r <= List.length (header (st_file content))
  | [] => True
  end ->
  match header (st_file content) with
  | [] =>
      fst (upload_csv UPLOAD_FOLDER secure_filename iter_row clock stamp iso req srv) =
      UploadError 500 ("Upload failed: Error analyzing CSV: " ++ no_columns_msg)%string
  | _ =>
      exists detail,
      fst (upload_csv UPLOAD_FOLDER secure_filename iter_row clock stamp iso req srv) =
      UploadError 500 ("Upload failed: Error analyzing CSV: " ++ expected_fields_msg
                       ++ detail)%string
  end.
Proof.
  intros Hf Hn Ha Hs Hp _. unfold upload_csv. rewrite Hf.
  destruct (String.eqb fname "") eqn:E; [apply String.eqb_eq in E; contradiction |].
  rewrite Ha. cbn [negb].
  destruct (Nat.ltb MAX_FILE_SIZE (st_size content)) eqn:El;
    [apply Nat.ltb_lt, Nat.lt_nge in El; contradiction |].
  unfold analyze_csv_quality_chunked.
  rewrite (UploadFacts.analyze_unparseable CHUNK_SIZE (st_file content) (st_size content) 10000
             (proj1 (Nat.ltb_lt 0 CHUNK_SIZE) eq_refl) Hp).
  destruct (header (st_file content)); [reflexivity |].
  exists ""%string. rewrite StrFacts.app_nil_str. reflexivity.
Qed.

(** X14. a successful upload of [fname] by user [uid] at second [clock]
    answers with the file id [uid_stamp_name], keeps the file at
    [UPLOAD_FOLDER/<file id>] (no other path changes), and stores its
    metadata under ["csv_file:" ++ file id]: redis returns it, with that
    path and the secured name, until second [clock + 7200] and nothing
    from then on. *)
Theorem upload_success_stores {V : Type} `{Pandas V} {PV : Type} (UPLOAD_FOLDER : string)
  (secure_filename : string -> string) (iter_row : list V -> list PV)
  (clock : nat) (stamp iso : string) (req : upload_req) (srv : server)
  (fname : string) (content : stored) :
  up_file req = Some (fname, content) -> fname <> ""%string ->
  allowed_file fname = true -> st_size content <= MAX_FILE_SIZE ->
  parseable (st_file content) = true ->
  let unique :=
    (z_decimal (up_user req) ++ "_" ++ stamp ++ "_" ++ secure_filename fname)%string in
  let path := path_join UPLOAD_FOLDER unique in
  let res := upload_csv UPLOAD_FOLDER secure_filename iter_row clock stamp iso req srv in
  (exists size_mb preview report large, fst res = UploadOk unique size_mb preview report large) /\
  dict_get path (disk (snd res)) = Some content /\
  (forall q, q <> path -> dict_get q (disk (snd res)) = dict_get q (disk srv)) /\
  forall clock',
    redis_get clock' ("csv_file:" ++ unique)%string (rstore (snd res)) =
    if Nat.ltb clock' (clock + 7200)
    then Some (RMeta {| original_filename := secure_filename fname; meta_file_path := path;
                        uploaded_at := iso; meta_user_id := up_user req;
                        meta_file_size := st_size content |})
    else None.
Proof.
  intros Hf Hn Ha Hs Hp unique path res.
  destruct (UploadFacts.upload_success_state UPLOAD_FOLDER secure_filename iter_row
              clock stamp iso req srv fname content Hf Hn Ha Hs Hp) as [r [_ Eu]].
  unfold res. rewrite Eu. cbn [fst snd disk rstore].
  split; [do 4 eexists; reflexivity |].
  split; [rewrite DictFacts.dict_get_set, String.eqb_refl; reflexivity |].
  split; [intros q Hq; rewrite DictFacts.dict_get_set;
          case String.eqb_spec; [intros E; exact (False_rect _ (Hq E)) | reflexivity] |].
  intros clock'. apply UploadFacts.redis_get_setex.
Qed.

Module RouteFacts.

Lemma parse_record_length n r c : parse_record n r = Some c -> List.length c = n.
Proof.
  unfold parse_record. destruct (Nat.leb_spec (List.length r) n) as [Hl | Hl];
    [| discriminate].
  intros E; inversion E. rewrite length_app, length_map, repeat_length. lia.
Qed.

Lemma parse_lenient_lengths n rs : Forall (fun c => List.length c = n) (parse_lenient n rs).
Proof.
  induction rs as [| r rs IH]; cbn [parse_lenient]; [constructor |].
  destruct (parse_record n r) eqn:E; [constructor; [eapply parse_record_length; exact E | exact IH] | exact IH].
Qed.

Lemma forall_firstn {A} (P : A -> Prop) n l : Forall P l -> Forall P (firstn n l).
Proof. intros Hl. rewrite <- (firstn_skipn n l) in Hl. apply Forall_app in Hl. tauto. Qed.

Lemma typed_row_length {V} `{Pandas V} (rows : list (list cell)) (r : list cell) :
  List.length (map (fun jc => read_value (V:=V) (col_values (fst jc) rows) (snd jc))
                   (combine (seq 0 (List.length r)) r)) = List.length r.
Proof. rewrite length_map, length_combine, length_seq. lia. Qed.

Lemma fold_record_combine {PV} (cols : list string) (vals : list PV) :
  NoDup cols -> List.length vals = List.length cols ->
  fold_left (fun record cv => dict_set (fst cv) (snd cv) record) (combine cols vals) []
  = combine cols vals.
Proof.
  intros Hnd Hl.
  pose proof (DictFacts.fold_dict_set_fresh (fun _ b => b) (combine cols vals) []) as F.
  cbn beta in F. rewrite F.
  - cbn [app]. clear. induction (combine cols vals) as [| [k v] l IH]; cbn; [reflexivity | congruence].
  - rewrite ReportFacts.map_fst_combine by lia. exact Hnd.
  - intros k _. reflexivity.
Qed.

Lemma upload_id_nonempty (uid : Z) (stamp name : string) :
  String.eqb (z_decimal uid ++ "_" ++ stamp ++ "_" ++ name) "" = false.
Proof. destruct (z_decimal uid); reflexivity. Qed.

End RouteFacts.

(** X15. the preview of an upload has at most 10 records, and each record
    is a dict whose keys are the data frame's columns in order (the header
    names made distinct by pandas, see [py_columns]), paired with the values
    of its row. *)
Theorem preview_shape {V : Type} `{Pandas V} {PV : Type} (iter_row : list V -> list PV)
  (f : csv_file) :
  (forall r, List.length (iter_row r) = List.length r) ->
  let p := preview_records iter_row f in
  List.length p <= 10 /\ Forall (fun record => map fst record = py_columns (header f)) p.
Proof.
  intros Hit p. unfold p, preview_records, read_csv_sample, read_header.
  destruct (header f) as [| h0 hs] eqn:Eh; [cbn; split; [lia | constructor] |].
  cbn [bind ret Z.ltb Z.compare Z.to_nat]. rewrite <- Eh.
  set (cols := py_columns (header f)).
  set (rows := firstn (Pos.to_nat 10) (parse_lenient (List.length cols) (records f))).
  assert (Hr : Forall (fun c => List.length c = List.length cols) rows)
    by (apply RouteFacts.forall_firstn, RouteFacts.parse_lenient_lengths).
  assert (Hnd : NoDup cols) by apply ColumnFacts.py_columns_nodup.
  split.
  - rewrite length_map. unfold typed_frame. cbn [frows]. rewrite length_map.
    unfold rows. rewrite length_firstn. change (Pos.to_nat 10) with 10. lia.
  - apply Forall_map. unfold typed_frame. cbn [frows]. apply Forall_map.
    revert Hr. apply Forall_impl. intros r Hlr.
    rewrite RouteFacts.fold_record_combine; [| exact Hnd |].
    + apply ReportFacts.map_fst_combine. rewrite Hit, RouteFacts.typed_row_length. lia.
    + rewrite Hit, RouteFacts.typed_row_length. exact Hlr.
Qed.

(** X16. after a successful upload, [/preprocess] with the returned file id
    enqueues one job on the uploaded file's path, with the given options,
    until second [clock + 7200]; from then on it answers 404 ["File not
    found or expired"] and enqueues nothing. *)
Theorem preprocess_after_upload {V : Type} `{Pandas V} {PV : Type} (UPLOAD_FOLDER : string)
  (secure_filename : string -> string) (iter_row : list V -> list PV)
  (clock : nat) (stamp iso : string) (req : upload_req) (srv : server)
  (fname : string) (content : stored) (clock' : nat) (o : options) (new_id : string)
  (q : list job) :
  up_file req = Some (fname, content) -> fname <> ""%string ->
  allowed_file fname = true -> st_size content <= MAX_FILE_SIZE ->
  parseable (st_file content) = true ->
  let unique :=
    (z_decimal (up_user req) ++ "_" ++ stamp ++ "_" ++ secure_filename fname)%string in
  let srv' := snd (upload_csv UPLOAD_FOLDER secure_filename iter_row clock stamp iso req srv) in
  preprocess_csv clock' (Some unique) o new_id srv' q =
  if Nat.ltb clock' (clock + 7200)
  then (PreQueued new_id,
        q ++ [{| job_id := new_id; job_path := path_join UPLOAD_FOLDER unique;
                 job_options := o |}])
  else (PreError 404 "File not found or expired", q).
Proof.
  intros Hf Hn Ha Hs Hp unique srv'.
  destruct (UploadFacts.upload_success_state UPLOAD_FOLDER secure_filename iter_row
              clock stamp iso req srv fname content Hf Hn Ha Hs Hp) as [r [_ Eu]].
  unfold srv'. rewrite Eu. unfold preprocess_csv. cbn [snd rstore].
  unfold unique. rewrite RouteFacts.upload_id_nonempty, UploadFacts.redis_get_setex.
  destruct (Nat.ltb clock' (clock + 7200)); reflexivity.
Qed.

(** X17. after a successful upload and a successful transform of the
    uploaded path, [/download] with the file id (before the metadata
    expires) serves exactly the path the transform reports as its output,
    under the name ["processed_" ++ secured name], or answers 404
    ["Processed file not found"] when no file is at that path. *)
Theorem download_after_transform {V : Type} `{Pandas V} {PV : Type} (UPLOAD_FOLDER : string)
  (secure_filename : string -> string) (iter_row : list V -> list PV)
  (clock : nat) (stamp iso : string) (req : upload_req) (srv : server)
  (fname : string) (content : stored) (clock' : nat)
  {W : Type} `{Pandas W} (cs : nat) (fs : string -> option csv_file) (o : options)
  (w : world W) (r : transform_result) (exists_file : string -> bool) :
  up_file req = Some (fname, content) -> fname <> ""%string ->
  allowed_file fname = true -> st_size content <= MAX_FILE_SIZE ->
  parseable (st_file content) = true ->
  clock' < clock + 7200 ->
  let unique :=
    (z_decimal (up_user req) ++ "_" ++ stamp ++ "_" ++ secure_filename fname)%string in
  let srv' := snd (upload_csv UPLOAD_FOLDER secure_filename iter_row clock stamp iso req srv) in
  fst (preprocess_csv_task_chunked_with cs fs (path_join UPLOAD_FOLDER unique) o w) = inr r ->
  status r = "success" ->
  exists out,
    output_path r = Some out /\
    download_processed_csv clock' unique srv' exists_file =
    if exists_file out then DlSend out ("processed_" ++ secure_filename fname)%string
    else DlError 404 "Processed file not found".
Proof.
  intros Hf Hn Ha Hs Hp Hc unique srv' Et St.
  destruct (UploadFacts.upload_success_state UPLOAD_FOLDER secure_filename iter_row
              clock stamp iso req srv fname content Hf Hn Ha Hs Hp) as [rep [_ Eu]].
  eexists. split; [exact (transform_output_path cs fs _ o w r Et St) |].
  unfold srv'. rewrite Eu. unfold download_processed_csv. cbn [snd rstore].
  rewrite UploadFacts.redis_get_setex.
  destruct (Nat.ltb_spec clock' (clock + 7200)) as [_ | Hge]; [| lia].
  cbn [meta_file_path original_filename].
  destruct (exists_file _); reflexivity.
Qed.

(** X18. after a successful upload, [/analyze] with the file id returns the
    same quality report the upload returned (with the statistics of the
    file added) until second [clock + 7200], and 404 ["File not found or
    expired"] from then on. *)
Theorem analyze_after_upload {V : Type} `{Pandas V} {PV : Type} (UPLOAD_FOLDER : string)
  (secure_filename : string -> string) (iter_row : list V -> list PV)
  (clock : nat) (stamp iso : string) (req : upload_req) (srv : server)
  (fname : string) (content : stored) (clock' : nat) (statistics : csv_file -> json) :
  up_file req = Some (fname, content) -> fname <> ""%string ->
  allowed_file fname = true -> st_size content <= MAX_FILE_SIZE ->
  parseable (st_file content) = true ->
  let unique :=
    (z_decimal (up_user req) ++ "_" ++ stamp ++ "_" ++ secure_filename fname)%string in
  let res := upload_csv UPLOAD_FOLDER secure_filename iter_row clock stamp iso req srv in
  exists report,
    (exists size_mb preview large, fst res = UploadOk unique size_mb preview report large) /\
    analyze_csv statistics clock' unique (snd res) =
    if Nat.ltb clock' (clock + 7200) then AnOk report (statistics (st_file content))
    else AnError 404 "File not found or expired".
Proof.
  intros Hf Hn Ha Hs Hp unique res.
  destruct (UploadFacts.upload_success_state UPLOAD_FOLDER secure_filename iter_row
              clock stamp iso req srv fname content Hf Hn Ha Hs Hp) as [rep [Er Eu]].
  exists rep. unfold res. rewrite Eu. unfold analyze_csv. cbn [fst snd rstore disk].
  split; [do 3 eexists; reflexivity |].
  rewrite UploadFacts.redis_get_setex.
  destruct (Nat.ltb clock' (clock + 7200)); [| reflexivity].
  cbn [meta_file_path]. rewrite DictFacts.dict_get_set, String.eqb_refl. rewrite Er.
  reflexivity.
Qed.

Module StatusFacts.

Lemma apply_setex_log_progress clock clock' p ns : forall st,
  ns <> [] ->
  redis_get clock' ("progress:" ++ p)%string
    (apply_setex_log clock (map (progress_write p) ns) st) =
  if Nat.ltb clock' (clock + 300) then Some (RJson (progress_json (last ns 0))) else None.
Proof.
  induction ns as [| n ns IH]; intros st Hne; [contradiction |].
  unfold apply_setex_log. cbn [map fold_left].
  destruct ns as [| n' ns'].
  - cbn [fold_left progress_write sx_key sx_ttl sx_value last].
    apply UploadFacts.redis_get_setex.
  - apply IH. discriminate.
Qed.

End StatusFacts.

(** X19. while a job on [file_path] is running, after its progress writes
    [n1, ..., nk] (k > 0) sent at second [clock], [get_task_status]
    reports [rows_processed = nk], the last value written, until second
    [clock + 300]; once that key has expired it reports 0, even though the
    job is still running. *)
Theorem task_status_latest_progress (no_such_job_msg : string -> string)
  (clock clock' : nat) (task_id : string) (jobs : list rq_job) (j : rq_job)
  (meta : option nat) (d : list (string * stored))
  (st : list (string * (redis_value * nat))) (ns : list nat) :
  find (fun j => String.eqb (rq_id j) task_id) jobs = Some j ->
  rq_state j = JobRunning meta -> ns <> [] ->
  get_task_status no_such_job_msg clock' task_id jobs
    {| disk := d;
       rstore := apply_setex_log clock (map (progress_write (rq_args0 j)) ns) st |} =
  StProcessing (match meta with Some p => p | None => 0 end)
               (JInt (if Nat.ltb clock' (clock + 300) then last ns 0 else 0)).
Proof.
  intros Hf Hs Hne. unfold get_task_status. rewrite Hf, Hs. cbn [rstore].
  rewrite StatusFacts.apply_setex_log_progress by exact Hne.
  destruct (Nat.ltb clock' (clock + 300)); reflexivity.
Qed.

(** ** Witnesses of the further facts *)

Lemma apply_preprocessing_rows_witness :
  NoDup (fcolumns demo_frame) /\
  fcolumns (apply_preprocessing_options demo_frame drop_only_options) = fcolumns demo_frame /\
  (handle_missing drop_only_options = Some "drop" ->
   trim_whitespace drop_only_options = false -> convert_types drop_only_options = false ->
   frows (apply_preprocessing_options demo_frame drop_only_options) =
   filter (fun r => negb (existsb val_isna r)) (frows demo_frame)) /\
  (handle_missing drop_only_options = Some "drop" ->
   List.length (frows (apply_preprocessing_options demo_frame drop_only_options)) =
   List.length (filter (fun r => negb (existsb val_isna r)) (frows demo_frame))) /\
  (handle_missing drop_only_options <> Some "drop" ->
   List.length (frows (apply_preprocessing_options demo_frame drop_only_options)) =
   List.length (frows demo_frame)).
Proof.
  assert (Hnd : NoDup (fcolumns demo_frame))
    by (cbn; constructor; [intros [H | []]; discriminate H | constructor; [intros [] | constructor]]).
  split; [exact Hnd |].
  apply (apply_preprocessing_rows demo_frame drop_only_options Hnd).
Defined.

Lemma drop_leaves_no_missing_witness :
  (handle_missing drop_options = Some "drop" /\ convert_types drop_options = false /\
   NoDup (fcolumns demo_frame)) /\
  Forall (Forall (fun v => v <> None)) (frows (apply_preprocessing_options demo_frame drop_options)).
Proof.
  assert (Hnd : NoDup (fcolumns demo_frame))
    by (cbn; constructor; [intros [H | []]; discriminate H | constructor; [intros [] | constructor]]).
  split; [split; [reflexivity | split; [reflexivity | exact Hnd]] |].
  apply (drop_leaves_no_missing demo_frame drop_options); [reflexivity | reflexivity | exact Hnd].
Defined.



Lemma output_overwrites_input_witness :
  allowed_file "DATA.CSV" = true /\
  String.index 0 ".csv" "up/1_t_DATA.CSV" = None /\
  exists r, fst (preprocess_csv_task_chunked_with 1 upper_fs "up/1_t_DATA.CSV"
                  default_options empty_world) = inr r /\
            status r = "success" /\ output_path r = Some "up/1_t_DATA.CSV".
Proof.
  split; [vm_compute; reflexivity |]. split; [vm_compute; reflexivity |].
  destruct (fst (preprocess_csv_task_chunked_with 1 upper_fs "up/1_t_DATA.CSV"
                   default_options empty_world)) as [e | r] eqn:E.
  - vm_compute in E. discriminate.
  - exists r. split; [reflexivity |].
    assert (S : status r = "success") by (vm_compute in E; inversion E; reflexivity).
    split; [exact S |].
    exact (output_overwrites_input (V:=cell) 1 upper_fs "up/1_t_DATA.CSV" default_options
             empty_world r ltac:(vm_compute; reflexivity) E S).
Defined.

Lemma token_uses_second_word_witness :
  (has_char " "%char "Token" = false /\ has_char " "%char "good" = false /\
   (" extra"%string = ""%string \/ exists r, " extra"%string = String " "%char r)) /\
  token_required demo_decode Some (Some ("Token" ++ " " ++ "good" ++ " extra")%string) =
  token_required demo_decode Some (Some ("Bearer " ++ "good")%string) /\
  token_required demo_decode Some (Some ("Bearer " ++ "good")%string) = AuthOk 7.
Proof.
  split; [split; [reflexivity | split; [reflexivity | right; exists "extra"%string; reflexivity]] |].
  split; [| vm_compute; reflexivity].
  apply (token_uses_second_word demo_decode Some "Token" "good" " extra");
    [reflexivity | reflexivity | right; exists "extra"%string; reflexivity].
Defined.

Lemma token_without_space_crashes_witness :
  ("good"%string <> ""%string /\ has_char " "%char "good" = false) /\
  token_required demo_decode Some (Some "good"%string) = AuthCrash "IndexError".
Proof.
  split; [split; [discriminate | reflexivity] |].
  apply (token_without_space_crashes demo_decode Some "good"); [discriminate | reflexivity].
Defined.

Lemma upload_failure_no_trace_witness :
  upload_csv "up" (fun s => s) (fun r : list cell => r) 0 "t" "iso"
    (upload_of "notes.txt" names_file) empty_server =
    (UploadError 400 "Invalid file type. Only CSV files are allowed", empty_server) /\
  rstore empty_server = rstore empty_server /\
  forall q, dict_get q (disk empty_server) = None \/
            dict_get q (disk empty_server) = dict_get q (disk empty_server).
Proof.
  assert (E : upload_csv "up" (fun s => s) (fun r : list cell => r) 0 "t" "iso"
                (upload_of "notes.txt" names_file) empty_server =
              (UploadError 400 "Invalid file type. Only CSV files are allowed", empty_server))
    by (vm_compute; reflexivity).
  split; [exact E |].
  exact (upload_failure_no_trace "up" (fun s => s) (fun r : list cell => r) 0 "t" "iso"
           (upload_of "notes.txt" names_file) empty_server empty_server 400
           "Invalid file type. Only CSV files are allowed" E).
Defined.

Lemma upload_unparseable_is_500_witness :
  (up_file (upload_of "bad.csv" bad_file) =
     Some ("bad.csv"%string, {| st_file := bad_file; st_size := 10 |}) /\
   "bad.csv"%string <> ""%string /\ allowed_file "bad.csv" = true /\
   st_size {| st_file := bad_file; st_size := 10 |} <= MAX_FILE_SIZE /\
   parseable bad_file = false /\
   List.length ["1"; "2"] <= List.length (header bad_file)) /\
  exists detail,
  fst (upload_csv "up" (fun s => s) (fun r : list cell => r) 0 "t" "iso"
         (upload_of "bad.csv" bad_file) empty_server) =
  UploadError 500 ("Upload failed: Error analyzing CSV: " ++ expected_fields_msg
                   ++ detail)%string.
Proof.
  assert (Hs : st_size {| st_file := bad_file; st_size := 10 |} <= MAX_FILE_SIZE)
    by (cbn [st_size]; unfold MAX_FILE_SIZE; lia).
  split; [split; [reflexivity | split; [discriminate |
          split; [vm_compute; reflexivity | split; [exact Hs |
          split; [vm_compute; reflexivity | cbn; lia]]]]] |].
  exact (upload_unparseable_is_500 "up" (fun s => s) (fun r : list cell => r) 0 "t" "iso"
           (upload_of "bad.csv" bad_file) empty_server "bad.csv"
           {| st_file := bad_file; st_size := 10 |} eq_refl ltac:(discriminate)
           ltac:(vm_compute; reflexivity) Hs ltac:(vm_compute; reflexivity)
           ltac:(cbn; lia)).
Defined.

Lemma upload_success_stores_witness :
  (up_file (upload_of "names.csv" names_file) =
     Some ("names.csv"%string, {| st_file := names_file; st_size := 10 |}) /\
   "names.csv"%string <> ""%string /\ allowed_file "names.csv" = true /\
   st_size {| st_file := names_file; st_size := 10 |} <= MAX_FILE_SIZE /\
   parseable names_file = true) /\
  let res := upload_csv "up" (fun s => s) (fun r : list cell => r) 0 "t" "iso"
               (upload_of "names.csv" names_file) empty_server in
  dict_get "up/1_t_names.csv" (disk (snd res)) =
    Some {| st_file := names_file; st_size := 10 |} /\
  redis_get 7199 "csv_file:1_t_names.csv" (rstore (snd res)) <> None /\
  redis_get 7200 "csv_file:1_t_names.csv" (rstore (snd res)) = None.
Proof.
  assert (Hs : st_size {| st_file := names_file; st_size := 10 |} <= MAX_FILE_SIZE)
    by (cbn [st_size]; unfold MAX_FILE_SIZE; lia).
  split; [split; [reflexivity | split; [discriminate |
          split; [vm_compute; reflexivity | split; [exact Hs | vm_compute; reflexivity]]]] |].
  destruct (upload_success_stores "up" (fun s => s) (fun r : list cell => r) 0 "t" "iso"
              (upload_of "names.csv" names_file) empty_server "names.csv"
              {| st_file := names_file; st_size := 10 |} eq_refl ltac:(discriminate)
              ltac:(vm_compute; reflexivity) Hs ltac:(vm_compute; reflexivity))
    as [_ [Hd [_ Hr]]].
  cbn zeta. split; [exact Hd |]. split.
  - rewrite Hr. vm_compute. discriminate.
  - rewrite Hr. vm_compute. reflexivity.
Defined.

Lemma preview_shape_witness :
  (forall r : list cell, List.length r = List.length r) /\
  List.length (preview_records (fun r : list cell => r) dup_header_file) <= 10 /\
  Forall (fun record => map fst record = py_columns (header dup_header_file))
         (preview_records (fun r : list cell => r) dup_header_file).
Proof.
  split; [reflexivity |].
  exact (preview_shape (fun r : list cell => r) dup_header_file (fun r => eq_refl)).
Defined.

Lemma preprocess_after_upload_witness :
  preprocess_csv 100 (Some "1_t_names.csv"%string) default_options "job1"
    (snd (upload_csv "up" (fun s => s) (fun r : list cell => r) 0 "t" "iso"
            (upload_of "names.csv" names_file) empty_server)) [] =
  (PreQueued "job1",
   [{| job_id := "job1"; job_path := "up/1_t_names.csv"; job_options := default_options |}]).
Proof.
  assert (Hs : st_size {| st_file := names_file; st_size := 10 |} <= MAX_FILE_SIZE)
    by (cbn [st_size]; unfold MAX_FILE_SIZE; lia).
  pose proof (preprocess_after_upload "up" (fun s => s) (fun r : list cell => r) 0 "t" "iso"
                (upload_of "names.csv" names_file) empty_server "names.csv"
                {| st_file := names_file; st_size := 10 |} 100 default_options "job1" []
                eq_refl ltac:(discriminate) ltac:(vm_compute; reflexivity) Hs
                ltac:(vm_compute; reflexivity)) as P.
  cbn zeta in P. refine (eq_trans P _). vm_compute. reflexivity.
Defined.

Lemma download_after_transform_witness :
  exists r out,
    fst (preprocess_csv_task_chunked_with 1 uploaded_fs "up/1_t_names.csv" default_options
           empty_world) = inr r /\
    output_path r = Some out /\
    download_processed_csv 100 "1_t_names.csv"
      (snd (upload_csv "up" (fun s => s) (fun r : list cell => r) 0 "t" "iso"
              (upload_of "names.csv" names_file) empty_server))
      (fun p => String.eqb p out) =
    DlSend out "processed_names.csv".
Proof.
  assert (Hs : st_size {| st_file := names_file; st_size := 10 |} <= MAX_FILE_SIZE)
    by (cbn [st_size]; unfold MAX_FILE_SIZE; lia).
  destruct (fst (preprocess_csv_task_chunked_with 1 uploaded_fs "up/1_t_names.csv"
                   default_options empty_world)) as [e | r] eqn:E.
  - vm_compute in E. discriminate.
  - assert (S : status r = "success") by (vm_compute in E; inversion E; reflexivity).
    assert (Ep : path_join "up" "1_t_names.csv" = "up/1_t_names.csv"%string)
      by (vm_compute; reflexivity).
    assert (E' : fst (preprocess_csv_task_chunked_with 1 uploaded_fs
                        (path_join "up" "1_t_names.csv") default_options empty_world) = inr r)
      by (rewrite Ep; exact E).
    destruct (download_after_transform "up" (fun s => s) (fun r : list cell => r) 0 "t" "iso"
                (upload_of "names.csv" names_file) empty_server "names.csv"
                {| st_file := names_file; st_size := 10 |} 100 1 uploaded_fs default_options
                empty_world r (fun p => String.eqb p (str_replace ".csv" "_processed.csv"
                                                         "up/1_t_names.csv"))
                eq_refl ltac:(discriminate) ltac:(vm_compute; reflexivity) Hs
                ltac:(vm_compute; reflexivity) (proj1 (Nat.ltb_lt 100 (0 + 7200)) eq_refl) E' S)
      as [out [Ho Hd]].
    exists r, out. split; [reflexivity |]. split; [exact Ho |].
    assert (Eo : out = str_replace ".csv" "_processed.csv" "up/1_t_names.csv").
    { vm_compute in E. inversion E. subst r. cbn in Ho. inversion Ho. reflexivity. }
    subst out. refine (eq_trans Hd _). vm_compute. reflexivity.
Defined.

Lemma analyze_after_upload_witness :
  exists report,
    (exists size_mb preview large,
       fst (upload_csv "up" (fun s => s) (fun r : list cell => r) 0 "t" "iso"
              (upload_of "names.csv" names_file) empty_server) =
       UploadOk "1_t_names.csv" size_mb preview report large) /\
    analyze_csv (fun _ => JObj []) 100 "1_t_names.csv"
      (snd (upload_csv "up" (fun s => s) (fun r : list cell => r) 0 "t" "iso"
              (upload_of "names.csv" names_file) empty_server)) = AnOk report (JObj []).
Proof.
  assert (Hs : st_size {| st_file := names_file; st_size := 10 |} <= MAX_FILE_SIZE)
    by (cbn [st_size]; unfold MAX_FILE_SIZE; lia).
  destruct (analyze_after_upload "up" (fun s => s) (fun r : list cell => r) 0 "t" "iso"
              (upload_of "names.csv" names_file) empty_server "names.csv"
              {| st_file := names_file; st_size := 10 |} 100 (fun _ => JObj [])
              eq_refl ltac:(discriminate) ltac:(vm_compute; reflexivity) Hs
              ltac:(vm_compute; reflexivity)) as [rep [Hu Ha]].
  exists rep. split; [exact Hu |]. refine (eq_trans Ha _). vm_compute. reflexivity.
Defined.

Lemma task_status_latest_progress_witness :
  get_task_status (fun s => s) 100 "job1" running_jobs
    {| disk := [];
       rstore := apply_setex_log 0 (map (progress_write "up/1_t_names.csv") [1; 2]) [] |} =
  StProcessing 0 (JInt 2).
Proof.
  refine (eq_trans (task_status_latest_progress (fun s => s) 0 100 "job1" running_jobs
             {| rq_id := "job1"; rq_args0 := "up/1_t_names.csv"; rq_state := JobRunning None |}
             None [] [] [1; 2] eq_refl eq_refl ltac:(discriminate)) _).
  vm_compute. reflexivity.
Defined.
